(** * napalm_dell: the DNOS6 driver (src/napalm_dell/dell.py)

    A shallow embedding of [DNOS6Driver]: the command dispatcher, the
    liveness probe, the configuration and environment getters and the
    MAC, ARP and LLDP parsers, together with the Python string builtins
    and the three regular expressions they are written with.

    Text is a [string] of code points below 256.  A Python call is a
    [result]: either a value or a raised exception.  The netmiko
    connection and the napalm helpers are collaborators outside the
    repository and enter as interfaces ([Netmiko], [NapalmBase]). *)

From Stdlib Require Import ZArith Lia Bool List Ascii String.
From Stdlib Require Import Floats.SpecFloat.
From stdpp Require Import base gmap strings.
Import ListNotations.

Local Open Scope Z_scope.
Local Open Scope string_scope.
Local Open Scope list_scope.

#[local] Arguments String.append !_ _ / : simpl nomatch.

(** ** Python values *)

Module Py.

(** The exception classes the driver can meet. *)
Inductive exn : Type :=
| SocketError (msg : string)            (* socket.error *)
| EOFError (msg : string)
| ConnectionClosedException (msg : string)
| NameError (name : string)
| UnboundLocalError (name : string)
| AttributeError
| UnicodeDecodeError
| TypeError
| ValueError
| IndexError
| KeyError (key : string)
| OverflowError
| OtherError (cls : string).

Inductive result (A : Type) : Type :=
| Ok (a : A)
| Raise (e : exn).
Arguments Ok {A} a.
Arguments Raise {A} e.

Definition is_ok {A} (r : result A) : bool :=
  match r with Ok _ => true | Raise _ => false end.

Definition rbind {A B} (r : result A) (k : A -> result B) : result B :=
  match r with
  | Ok a => k a
  | Raise e => Raise e
  end.

(** A list comprehension whose element expression may raise: elements are
    evaluated left to right and the first exception ends it. *)
Fixpoint comprehension {A B} (f : A -> result B) (l : list A) : result (list B) :=
  match l with
  | [] => Ok []
  | a :: l' =>
      match f a with
      | Raise e => Raise e
      | Ok b =>
          match comprehension f l' with
          | Raise e => Raise e
          | Ok bs => Ok (b :: bs)
          end
      end
  end.

(** Python floats are IEEE-754 doubles. *)
Definition float := spec_float.

Definition prec : Z := 53.
Definition emax : Z := 1024.

(** [float(n)] for an int [n]: rounded to nearest even, OverflowError when
    the int is too large for a double. *)
Definition float_of_int (n : Z) : result float :=
  match binary_normalize prec emax n 0 false with
  | S754_infinity _ => Raise OverflowError
  | f => Ok f
  end.

(** The literals [-1.0] and [0.0]. *)
Definition minus_one : float := S754_finite true 4503599627370496 (-52).
Definition zero : float := S754_zero false.

(** *** Characters *)

Definition LF : ascii := "010"%char.
Definition CR : ascii := "013"%char.

Definition code (c : ascii) : Z := Z.of_nat (nat_of_ascii c).

(** [unicode.isspace] below U+0100. *)
Definition is_space (c : ascii) : bool :=
  let n := code c in
  (((9 <=? n) && (n <=? 13)) || ((28 <=? n) && (n <=? 32))
   || (n =? 133) || (n =? 160))%Z.

(** Line boundaries of [unicode.splitlines] below U+0100. *)
Definition is_linebreak (c : ascii) : bool :=
  let n := code c in
  (((10 <=? n) && (n <=? 13)) || ((28 <=? n) && (n <=? 30)) || (n =? 133))%Z.

Definition is_digit (c : ascii) : bool :=
  let n := code c in ((48 <=? n) && (n <=? 57))%Z.

(** [unicode.lower] on one code point below U+0100. *)
Definition lower_char (c : ascii) : ascii :=
  let n := code c in
  if (((65 <=? n) && (n <=? 90))
      || ((192 <=? n) && (n <=? 222) && negb (n =? 215)))%Z
  then ascii_of_nat (Z.to_nat (n + 32))
  else c.

(** *** Strings *)

Fixpoint lower (s : string) : string :=
  match s with
  | EmptyString => EmptyString
  | String c s' => String (lower_char c) (lower s')
  end.

(** [needle in hay]. *)
Fixpoint contains (needle hay : string) : bool :=
  String.prefix needle hay
  || match hay with
     | EmptyString => false
     | String _ hay' => contains needle hay'
     end.

(** Puts a character in front of the first piece of a split. *)
Definition cons_head (c : ascii) (l : list string) : list string :=
  match l with
  | [] => [String c EmptyString]
  | t :: ts => String c t :: ts
  end.

(** [s.split()]: the maximal runs of non-whitespace characters. *)
Fixpoint split (s : string) : list string :=
  match s with
  | EmptyString => []
  | String c s' =>
      if is_space c then split s'
      else
        match s' with
        | EmptyString => [String c EmptyString]
        | String c' _ =>
            if is_space c' then String c EmptyString :: split s'
            else cons_head c (split s')
        end
  end.

(** [s.split('\n')]. *)
Fixpoint split_lf (s : string) : list string :=
  match s with
  | EmptyString => [EmptyString]
  | String c s' =>
      if Ascii.eqb c LF then EmptyString :: split_lf s'
      else cons_head c (split_lf s')
  end.

(** [s.split(', ')]. *)
Fixpoint split_comma_space (s : string) : list string :=
  match s with
  | EmptyString => [EmptyString]
  | String c s' =>
      match s' with
      | String c' s'' =>
          if Ascii.eqb c ","%char && Ascii.eqb c' " "%char
          then EmptyString :: split_comma_space s''
          else cons_head c (split_comma_space s')
      | EmptyString => [String c EmptyString]
      end
  end.

(** [s.splitlines()]; [after_cr] remembers that the previous character was
    a carriage return, so that CR LF ends one line, not two. *)
Fixpoint splitlines_from (after_cr : bool) (s : string) : list string :=
  match s with
  | EmptyString => []
  | String c s' =>
      if after_cr && Ascii.eqb c LF then splitlines_from false s'
      else if is_linebreak c then EmptyString :: splitlines_from (Ascii.eqb c CR) s'
      else cons_head c (splitlines_from false s')
  end.

Definition splitlines (s : string) : list string := splitlines_from false s.

(** [s[:-1]]. *)
Fixpoint drop_last (s : string) : string :=
  match s with
  | EmptyString => EmptyString
  | String c EmptyString => EmptyString
  | String c s' => String c (drop_last s')
  end.

(** [s[n:]] and [s[:n]] for [0 <= n]. *)
Fixpoint drop (n : nat) (s : string) : string :=
  match n, s with
  | O, _ => s
  | S _, EmptyString => EmptyString
  | S n', String _ s' => drop n' s'
  end.

Fixpoint take (n : nat) (s : string) : string :=
  match n, s with
  | O, _ => EmptyString
  | S _, EmptyString => EmptyString
  | S n', String c s' => String c (take n' s')
  end.

(** [s[i:j]] for [0 <= i <= j]. *)
Definition slice (i j : nat) (s : string) : string := take (j - i) (drop i s).

Fixpoint lstrip (s : string) : string :=
  match s with
  | EmptyString => EmptyString
  | String c s' => if is_space c then lstrip s' else s
  end.

Fixpoint rstrip (s : string) : string :=
  match s with
  | EmptyString => EmptyString
  | String c s' =>
      match rstrip s' with
      | EmptyString => if is_space c then EmptyString else String c EmptyString
      | t => String c t
      end
  end.

(** [s.strip()]. *)
Definition strip (s : string) : string := rstrip (lstrip s).

(** [l[i]] on a list. *)
Definition index {A} (l : list A) (i : nat) : result A :=
  match nth_error l i with
  | Some a => Ok a
  | None => Raise IndexError
  end.

(** *** [int(text)] in base ten

    Python 2.7 (the interpreter setup.py declares): surrounding whitespace is
    dropped, one sign is allowed, then at least one decimal digit and
    nothing else. *)

Fixpoint digits_value (acc : Z) (s : string) : option Z :=
  match s with
  | EmptyString => Some acc
  | String c s' =>
      if is_digit c then digits_value (10 * acc + (code c - 48)) s' else None
  end.

Definition unsigned_value (s : string) : option Z :=
  match s with
  | EmptyString => None
  | _ => digits_value 0 s
  end.

Definition int_of_string (s : string) : result Z :=
  let body := strip s in
  let signed :=
    match body with
    | String "-"%char t => option_map Z.opp (unsigned_value t)
    | String "+"%char t => unsigned_value t
    | _ => unsigned_value body
    end in
  match signed with
  | Some n => Ok n
  | None => Raise ValueError
  end.

End Py.

(** ** The regular expressions of the parsers *)

Module Re.
Import Py.

(** Where a left-to-right scan stands with respect to [^----.*] under
    [re.M]: at the start of a line, inside a line, or inside a match that
    runs to the end of its line. *)
Inductive cursor : Type := AtLineStart | InLine | InDelimiter.

Definition after (c : ascii) : cursor :=
  if Ascii.eqb c LF then AtLineStart else InLine.

(** [re.split(r'^----.*', text, flags=re.M)]: the pieces of [text] between
    the lines that begin with four dashes.  A match starts only at a line
    start and stops before the line feed, which opens the next piece. *)
Fixpoint split_dashes_from (m : cursor) (s : string) : list string :=
  match s with
  | EmptyString => [EmptyString]
  | String c s' =>
      match m with
      | InDelimiter =>
          if Ascii.eqb c LF then cons_head c (split_dashes_from AtLineStart s')
          else split_dashes_from InDelimiter s'
      | AtLineStart =>
          if String.prefix "----" s then EmptyString :: split_dashes_from InDelimiter s'
          else cons_head c (split_dashes_from (after c) s')
      | InLine => cons_head c (split_dashes_from (after c) s')
      end
  end.

Definition split_dashes (s : string) : list string :=
  split_dashes_from AtLineStart s.

(** The text that [\n\nTotal] must match. *)
Definition total_marker : string := String LF (String LF "Total").

(** [re.split(r'\n\nTotal.*', text, flags=re.M)[0]]: the text before the
    first empty line that is followed by a line beginning with Total. *)
Fixpoint before_total (s : string) : string :=
  if String.prefix total_marker s then EmptyString
  else
    match s with
    | EmptyString => EmptyString
    | String c s' => String c (before_total s')
    end.

(** The longest prefix without a line feed: what [.+] or [.*] can take. *)
Fixpoint rest_of_line (s : string) : string :=
  match s with
  | EmptyString => EmptyString
  | String c s' => if Ascii.eqb c LF then EmptyString else String c (rest_of_line s')
  end.

(** [re.search(key + '(.+)', text)], answering group 1 of the leftmost
    match, or [None] when nothing matches. *)
Fixpoint search_field (key s : string) : option string :=
  let here :=
    if String.prefix key s
    then match rest_of_line (drop (String.length key) s) with
         | EmptyString => None
         | g => Some g
         end
    else None in
  match here with
  | Some g => Some g
  | None =>
      match s with
      | EmptyString => None
      | String _ s' => search_field key s'
      end
  end.

(** [m.group(1)] on the answer of a search: [None] has no such attribute. *)
Definition group1 (m : option string) : result string :=
  match m with
  | Some g => Ok g
  | None => Raise AttributeError
  end.

End Re.

(** ** Module namespace *)

Module Globals.
Import Py.

(** The names dell.py binds at module level: its imports and its class.
    None of the names looked up below is a Python builtin. *)
Definition module_globals : list string :=
  [ "print_function"; "unicode_literals"; "re"; "socket"; "collections";
    "ConnectHandler"; "FileTransfer"; "InLineTransfer"; "NetworkDriver";
    "napalm"; "C"; "py23_compat"; "cast_ip"; "cast_mac";
    "canonical_interface_name"; "ConnectionException"; "DNOS6Driver" ].

(** Reading a global name: NameError unless the module binds it. *)
Definition load_global (name : string) : result unit :=
  if existsb (String.eqb name) module_globals then Ok tt
  else Raise (NameError name).

End Globals.

(** ** Collaborators *)

Import Py.

(** The netmiko connection the driver holds in [self.device].  Every call
    may change the connection and may raise. *)
Class Netmiko : Type := {
  Session : Type;
  (** [ConnectHandler(device_type=..., host=..., ...)]; the host, the
      credentials and the option bag are those of the driver instance. *)
  ConnectHandler : string -> result Session;
  enable : Session -> result unit * Session;
  disconnect : Session -> result unit * Session;
  send_command : Session -> string -> result string * Session;
  write_channel : Session -> string -> result unit * Session;
  (** [remote_conn.transport.is_active()] *)
  is_active : Session -> result bool * Session
}.

(** napalm.base: the MAC helper and the interface-name helper. *)
Class NapalmBase : Type := {
  mac : string -> result string;
  canonical_interface_name : string -> result string
}.

(** The builtin [float] on text. *)
Class Builtins : Type := {
  float_of_string : string -> result float
}.

(** The file-system probe of the netmiko connection. *)
Class FileSystem {netmiko : Netmiko} : Type := {
  _autodetect_fs : Session -> result string * Session
}.

(** The class [\s] of the interpreter's [re] module, below U+0100: the
    six ASCII blanks under Python 2 without the UNICODE flag, every
    Unicode blank under Python 3. *)
Class Regex : Type := {
  re_space : ascii -> bool
}.

(** ** The driver *)

Module DNOS6Driver.
Import Re Globals.

Section Driver.
Context {netmiko : Netmiko} {napalm : NapalmBase} {builtins : Builtins}.

(** The attributes of a driver instance that the methods below read. *)
Record Driver : Type := {
  transport : string;
  inline_transfer : bool;
  port : Z;
  use_canonical_interface : bool;
  device : option Session
}.

Definition with_device (self : Driver) (d : option Session) : Driver :=
  {| transport := transport self;
     inline_transfer := inline_transfer self;
     port := port self;
     use_canonical_interface := use_canonical_interface self;
     device := d |}.

(** A method: it answers or raises, and leaves the instance behind. *)
Definition M (A : Type) : Type := Driver -> result A * Driver.

Definition ret {A} (a : A) : M A := fun self => (Ok a, self).

Definition throw {A} (e : exn) : M A := fun self => (Raise e, self).

Definition bind {A B} (c : M A) (k : A -> M B) : M B :=
  fun self =>
    match c self with
    | (Ok a, self') => k a self'
    | (Raise e, self') => (Raise e, self')
    end.

Definition lift {A} (r : result A) : M A := fun self => (r, self).

(** [try: c except: handler]. *)
Definition try_except {A} (c : M A) (handler : exn -> M A) : M A :=
  fun self =>
    match c self with
    | (Ok a, self') => (Ok a, self')
    | (Raise e, self') => handler e self'
    end.

Notation "'let!' x ':=' c 'in' k" := (bind c (fun x => k))
  (at level 10, x name, c at level 100, k at level 200).

(** A call on [self.device]; [None] has no methods. *)
Definition on_device {A} (call : Session -> result A * Session) : M A :=
  fun self =>
    match device self with
    | None => (Raise AttributeError, self)
    | Some s => let (r, s') := call s in (r, with_device self (Some s'))
    end.

Definition default_port (transport : string) : result Z :=
  if String.eqb transport "ssh" then Ok 22
  else if String.eqb transport "telnet" then Ok 23
  else Raise (KeyError transport).

(** [__init__], for the optional arguments transport, inline_transfer,
    port and canonical_int. *)
Definition init (transport : string) (inline : bool) (port : option Z)
    (canonical_int : bool) : result Driver :=
  rbind (default_port transport) (fun dflt =>
  Ok {| transport := transport;
        inline_transfer := if String.eqb transport "telnet" then true else inline;
        port := match port with Some p => p | None => dflt end;
        use_canonical_interface := canonical_int;
        device := None |}).

Definition open : M unit :=
  fun self =>
    let device_type :=
      if String.eqb (transport self) "telnet" then "dell_dnos6_telnet"
      else "dell_dnos6" in
    match ConnectHandler device_type with
    | Raise e => (Raise e, self)
    | Ok s => on_device enable (with_device self (Some s))
    end.

Definition close : M unit := on_device disconnect.

(** *** _send_command *)

(** The argument of [_send_command]: one command or a list of them. *)
Inductive command : Type :=
| One (cmd : string)
| Several (cmds : list string).

Definition invalid_marker : string := "% Invalid".

(** The [for cmd in command] loop; [output] is the local variable, unbound
    ([None]) until the first response. *)
Fixpoint send_until_valid (cmds : list string) (output : option string)
  : M (option string) :=
  match cmds with
  | [] => ret output
  | cmd :: rest =>
      let! out := on_device (fun s => send_command s cmd) in
      if negb (contains invalid_marker out) then ret (Some out)
      else send_until_valid rest (Some out)
  end.

(** [except (socket.error, EOFError) as e: raise ConnectionClosedException(str(e))] *)
Definition connection_closed {A} (e : exn) : M A :=
  match e with
  | SocketError msg | EOFError msg =>
      let! _ := lift (load_global "ConnectionClosedException") in
      throw (ConnectionClosedException msg)
  | _ => throw e
  end.

Definition _send_command (cmd : command) : M string :=
  try_except
    (match cmd with
     | Several cmds =>
         let! output := send_until_valid cmds None in
         match output with
         | Some out => ret out
         | None => throw (UnboundLocalError "output")
         end
     | One c => on_device (fun s => send_command s c)
     end)
    connection_closed.

(** *** is_alive *)

Definition null : string := String (ascii_of_nat 0) EmptyString.
Definition IAC : string := String (ascii_of_nat 255) EmptyString.
Definition NOP : string := String (ascii_of_nat 241) EmptyString.

Definition alive (b : bool) : gmap string bool := {[ "is_alive" := b ]}.

Definition is_alive : M (gmap string bool) :=
  fun self =>
    match device self with
    | None => (Ok (alive false), self)
    | Some _ =>
        if String.eqb (transport self) "telnet" then
          try_except
            (let! _ := lift (load_global "telnetlib") in
             let! _ := on_device (fun s => write_channel s (IAC +:+ NOP)) in
             ret (alive true))
            (fun e =>
               match e with
               | UnicodeDecodeError => ret (alive true)
               | AttributeError => ret (alive false)
               | _ => throw e
               end)
            self
        else
          try_except
            (let! _ := on_device (fun s => write_channel s null) in
             let! active := on_device is_active in
             ret (alive active))
            (fun e =>
               match e with
               | SocketError _ | EOFError _ => ret (alive false)
               | _ => throw e
               end)
            self
    end.

(** *** get_config *)

Definition get_config (retrieve : string) : M (gmap string string) :=
  let configs : gmap string string :=
    {[ "startup" := ""; "running" := ""; "candidate" := "" ]} in
  let! configs :=
    if String.eqb retrieve "startup" || String.eqb retrieve "all" then
      let! output := _send_command (One "show startup-config") in
      ret (<["startup" := output]> configs)
    else ret configs in
  let! configs :=
    if String.eqb retrieve "running" || String.eqb retrieve "all" then
      let! output := _send_command (One "show running-config") in
      ret (<["running" := output]> configs)
    else ret configs in
  ret configs.

(** *** get_environment *)

Record CpuEntry : Type := { usage : float }.
Record Memory : Type := { used_ram : Z; available_ram : Z }.
Record TemperatureEntry : Type :=
  { is_alert : bool; is_critical : bool; temperature : float }.
Record PowerEntry : Type :=
  { status : bool; output : float; capacity : float }.
Record FanEntry : Type := { fan_status : bool }.

Record Environment : Type := {
  env_cpu : gmap Z CpuEntry;
  env_memory : Memory;
  env_temperature : gmap string TemperatureEntry;
  env_power : gmap string PowerEntry;
  env_fans : gmap string FanEntry
}.

(** The local variables the line loop assigns; [None] is an unbound one. *)
Record CpuScan : Type := {
  cpu_usage : float;
  used_mem : option Z;
  avail_mem : option Z
}.

Definition summary_marker : string := "Total CPU Utilization".

(** [int(line.split()[1])] *)
Definition second_int (line : string) : result Z :=
  rbind (index (split line) 1) int_of_string.

(** [float(line.split()[4][:-1])] *)
Definition one_minute (line : string) : result float :=
  rbind (index (split line) 4) (fun tok => float_of_string (drop_last tok)).

Definition assign_if (tok line : string) (old : option Z) : result (option Z) :=
  if contains tok line then rbind (second_int line) (fun v => Ok (Some v))
  else Ok old.

(** [for line in output.splitlines()]: the summary line ends the loop. *)
Fixpoint scan_cpu (lines : list string) (st : CpuScan) : result CpuScan :=
  match lines with
  | [] => Ok st
  | line :: rest =>
      if contains summary_marker line then
        rbind (one_minute line) (fun oneminute =>
        Ok {| cpu_usage := oneminute;
              used_mem := used_mem st;
              avail_mem := avail_mem st |})
      else
        rbind (assign_if "alloc" line (used_mem st)) (fun used =>
        rbind (assign_if "free" line (avail_mem st)) (fun avail =>
        scan_cpu rest {| cpu_usage := cpu_usage st;
                         used_mem := used;
                         avail_mem := avail |}))
  end.

(** Reading a local variable. *)
Definition local {A} (name : string) (v : option A) : result A :=
  match v with
  | Some a => Ok a
  | None => Raise (UnboundLocalError name)
  end.

Definition get_environment : M Environment :=
  let! out := _send_command (One "show proc cpu") in
  let! st := lift (scan_cpu (splitlines out)
                     {| cpu_usage := zero; used_mem := None; avail_mem := None |}) in
  let! used := lift (local "used_mem" (used_mem st)) in
  let! avail := lift (local "avail_mem" (avail_mem st)) in
  let! _ := _send_command (One "show system temperature") in
  ret {| env_cpu := {[ 0 := {| usage := cpu_usage st |} ]};
         env_memory := {| used_ram := used; available_ram := used + avail |};
         env_temperature :=
           {[ "invalid" := {| is_alert := false; is_critical := false;
                              temperature := minus_one |} ]};
         env_power :=
           {[ "invalid" := {| status := true; output := minus_one;
                              capacity := minus_one |} ]};
         env_fans := {[ "invalid" := {| fan_status := true |} ]} |}.

(** *** get_mac_address_table *)

(** [NetworkDriver._canonical_int], inherited from napalm. *)
Definition _canonical_int (self : Driver) (interface : string) : result string :=
  if use_canonical_interface self then canonical_interface_name interface
  else Ok interface.

Record MacEntry : Type := {
  mac_mac : string;
  mac_interface : string;
  mac_vlan : Z;
  mac_static : bool;
  mac_active : bool;
  mac_moves : Z;
  mac_last_move : float
}.

Definition among (s : string) (l : list string) : bool := existsb (String.eqb s) l.

Definition _process_mac_fields (self : Driver)
    (vlan mac_addr mac_type interface : string) : result MacEntry :=
  let static := among (lower mac_type) ["management"; "static"] in
  let active := among (lower mac_type) ["dynamic"] in
  rbind (mac mac_addr) (fun m =>
  rbind (_canonical_int self interface) (fun i =>
  rbind (int_of_string vlan) (fun v =>
  Ok {| mac_mac := m; mac_interface := i; mac_vlan := v;
        mac_static := static; mac_active := active;
        mac_moves := -1; mac_last_move := minus_one |}))).

(** [_process_mac_fields] called on the unpacked fields: four positional
    parameters. *)
Definition mac_row (self : Driver) (fields : list string) : result MacEntry :=
  match fields with
  | [vlan; mac_addr; mac_type; interface] =>
      _process_mac_fields self vlan mac_addr mac_type interface
  | _ => Raise TypeError
  end.

Definition nonempty (s : string) : bool := negb (String.eqb s "").

Definition get_mac_address_table : M (list MacEntry) :=
  let! out := _send_command (One "show mac address-table") in
  let pieces := skipn 1 (split_dashes out) in
  let! piece := lift (index pieces 0) in
  let lines := split_lf (before_total piece) in
  fun self =>
    (comprehension (fun i => mac_row self (split i)) (List.filter nonempty lines), self).

(** *** get_arp_table *)

Record ArpEntry : Type := {
  arp_interface : string;
  arp_mac : string;
  arp_ip : string;
  arp_age : float
}.

Definition _process_arp_fields (self : Driver)
    (ip mac_addr interface mac_type h m s : string) : result ArpEntry :=
  rbind (if String.eqb h "n/a" then Ok (-1)
         else
           rbind (int_of_string (drop_last h)) (fun h' =>
           rbind (int_of_string (drop_last m)) (fun m' =>
           rbind (int_of_string (drop_last s)) (fun s' =>
           Ok (h' * 3600 + m' * 60 + s'))))) (fun age =>
  rbind (_canonical_int self interface) (fun i =>
  rbind (mac mac_addr) (fun a =>
  rbind (float_of_int age) (fun age' =>
  Ok {| arp_interface := i; arp_mac := a; arp_ip := ip; arp_age := age' |})))).

(** [_process_arp_fields] called on the unpacked fields: five positional
    parameters and the two defaults [m=''] and [s='']. *)
Definition arp_row (self : Driver) (fields : list string) : result ArpEntry :=
  match fields with
  | [ip; mac_addr; interface; mac_type; h] =>
      _process_arp_fields self ip mac_addr interface mac_type h "" ""
  | [ip; mac_addr; interface; mac_type; h; m] =>
      _process_arp_fields self ip mac_addr interface mac_type h m ""
  | [ip; mac_addr; interface; mac_type; h; m; s] =>
      _process_arp_fields self ip mac_addr interface mac_type h m s
  | _ => Raise TypeError
  end.

Definition get_arp_table : M (list ArpEntry) :=
  let! out := _send_command (One "show arp") in
  let! piece := lift (index (split_dashes out) 1) in
  let lines := split_lf piece in
  fun self =>
    (comprehension (fun i => arp_row self (split i)) (List.filter nonempty lines), self).

(** *** get_lldp_neighbors *)

Record Neighbor : Type := {
  hostname : option string;
  neighbor_port : string
}.

(** [result[iface].append(n)] on the [defaultdict(list)], keys kept in the
    order of their first insertion. *)
Fixpoint append_at (iface : string) (n : Neighbor)
    (d : list (string * list Neighbor)) : list (string * list Neighbor) :=
  match d with
  | [] => [(iface, [n])]
  | (k, ns) :: d' =>
      if String.eqb k iface then (k, ns ++ [n]) :: d'
      else (k, ns) :: append_at iface n d'
  end.

Definition neighbor_of_line (line : string) : string * Neighbor :=
  let iface := strip (slice 0 10 line) in
  let portid := slice 38 55 line in
  let systemname := strip (drop 57 line) in
  (iface,
   {| hostname := if String.eqb systemname "" then None else Some systemname;
      neighbor_port := portid |}).

Definition get_lldp_neighbors : M (list (string * list Neighbor)) :=
  let! out := _send_command (One "show lldp remote-device all") in
  let! piece := lift (index (split_dashes out) 1) in
  ret (fold_left
         (fun d line => let (iface, n) := neighbor_of_line line in append_at iface n d)
         (List.filter nonempty (split_lf piece)) []).

(** *** get_lldp_neighbor_detail *)

Record LldpDetail : Type := {
  remote_chassis_id : string;
  remote_system_name : string;
  remote_port : string;
  remote_port_description : string;
  remote_system_description : string;
  remote_system_capab : string;
  remote_system_enable_capab : string
}.

Definition caps_map : list (string * string) :=
  [ ("bridge", "B"); ("router", "R"); ("WLAN access point", "W");
    ("station only", "S") ].

Fixpoint getitem (key : string) (d : list (string * string)) : result string :=
  match d with
  | [] => Raise (KeyError key)
  | (k, v) :: d' => if String.eqb k key then Ok v else getitem key d'
  end.

(** [try: x = re.search(...).group(1)] with [except: x = '']. *)
Definition or_empty (m : option string) : string :=
  match m with
  | Some g => g
  | None => ""
  end.

(** The method reads [caps_maps], a name bound nowhere (the table is
    [caps_map]); then it subscripts a list with text, reads the unbound
    [system_decription] and calls [join] on a list.  No path reaches the
    dict display, so no [LldpDetail] is ever built. *)
Definition _get_lldp_neighbor_detail_iface (interface : string) : M LldpDetail :=
  let! out := _send_command (One ("show lldp remote-device detail " +:+ interface)) in
  let! chassis_id := lift (group1 (search_field "Chassis ID: " out)) in
  let system_name := or_empty (search_field "System Name: " out) in
  let port_description := or_empty (search_field "Port Description: " out) in
  let caps_supported_output :=
    or_empty (search_field "System Capabilities Supported: " out) in
  let caps_enabled_output :=
    or_empty (search_field "System Capabilities Enabled: " out) in
  let! caps_supported :=
    lift (comprehension
            (fun cap => rbind (load_global "caps_maps") (fun _ => getitem cap caps_map))
            (split_comma_space caps_supported_output)) in
  let! caps_enabled :=
    lift (comprehension (fun cap : string => @Raise string TypeError)
            (split_comma_space caps_enabled_output)) in
  let! _ := lift (load_global "system_decription") in
  throw AttributeError.

Fixpoint for_each {A B} (f : A -> M B) (l : list A) : M (list B) :=
  match l with
  | [] => ret []
  | a :: l' =>
      let! b := f a in
      let! bs := for_each f l' in
      ret (b :: bs)
  end.

(** With no interface the answer is a list; with one, the method means to
    answer a single record. *)
Inductive Details : Type :=
| AllInterfaces (l : list LldpDetail)
| OneInterface (d : LldpDetail).

(** In the second branch the helper is named without [self.], so it is
    looked up as a global; its argument [iface] is a local of the first
    branch. *)
Definition get_lldp_neighbor_detail (interface : string) : M Details :=
  if String.eqb interface "" then
    let! neighs := get_lldp_neighbors in
    let! ifaces := for_each _get_lldp_neighbor_detail_iface (map fst neighs) in
    ret (AllInterfaces ifaces)
  else
    let! _ := lift (load_global "_get_lldp_neighbor_detail_iface") in
    let! iface := lift (@local string "iface" None) in
    let! d := _get_lldp_neighbor_detail_iface iface in
    ret (OneInterface d).

(** *** _discover_file_system *)

Context {files : FileSystem}.

(** [except Exception] takes every error, the AttributeError of a closed
    instance too; the handler then names [CommandErrorException]. *)
Definition _discover_file_system : M string :=
  try_except (on_device _autodetect_fs)
    (fun _ =>
       let! _ := lift (load_global "CommandErrorException") in
       throw (OtherError "CommandErrorException")).

(** *** get_interfaces: config_for_iface *)

(** The double quote. *)
Definition DQ : ascii := "034"%char.

(** What the lazy group [(.+?)] and the closing quote take after a first
    character: up to the next double quote on the same line. *)
Fixpoint until_quote (s : string) : option string :=
  match s with
  | EmptyString => None
  | String c s' =>
      if Ascii.eqb c LF then None
      else if Ascii.eqb c DQ then Some EmptyString
      else option_map (String c) (until_quote s')
  end.

(** Group 1 of the lazy [(.+?)] before a closing quote, at the start of
    [s]: one character of the line, then as few as possible up to a double
    quote. *)
Definition quoted (s : string) : option string :=
  match s with
  | EmptyString => None
  | String c s' =>
      if Ascii.eqb c LF then None else option_map (String c) (until_quote s')
  end.

Definition description_key : string := "description: " +:+ String DQ EmptyString.

(** [re.search] for the word description, a colon, a blank and a quoted
    lazy group [(.+?)], answering group 1. *)
Fixpoint search_description (s : string) : option string :=
  let here :=
    if String.prefix description_key s
    then quoted (drop (String.length description_key) s)
    else None in
  match here with
  | Some g => Some g
  | None =>
      match s with
      | EmptyString => None
      | String _ s' => search_description s'
      end
  end.

(** [re.search('((no )?shutdown)', text)], answering group 1. *)
Fixpoint search_shutdown (s : string) : option string :=
  if String.prefix "no shutdown" s then Some "no shutdown"
  else if String.prefix "shutdown" s then Some "shutdown"
  else
    match s with
    | EmptyString => None
    | String _ s' => search_shutdown s'
    end.

(** The description and the enabled flag read from one configuration
    block. *)
Definition block_settings (iface_config : string) : string * bool :=
  let descr :=
    match search_description iface_config with
    | Some g => g
    | None => ""
    end in
  let enabled :=
    negb (match search_shutdown iface_config with
          | Some g => String.eqb g "shutdown"
          | None => false
          end) in
  (descr, enabled).

(** [configs] is the answer of [re.findall] with three groups: the name of
    the interface, the block and the last character of the block. *)
Fixpoint config_for_iface (iface : string) (configs : list (string * string * string))
  : string * bool :=
  match configs with
  | [] => ("", true)
  | (name, iface_config, _) :: rest =>
      if String.eqb name iface then block_settings iface_config
      else config_for_iface iface rest
  end.

(** *** get_ntp_peers *)

Context {regex : Regex}.






(** *** Vocabulary of the statements *)

(** The responses to [cmds] sent one after the other from session [s], and
    the session afterwards; [None] when one of the sends raises. *)
Fixpoint responses (s : Session) (cmds : list string) : option (list string * Session) :=
  match cmds with
  | [] => Some ([], s)
  | cmd :: rest =>
      match send_command s cmd with
      | (Ok out, s') =>
          match responses s' rest with
          | Some (outs, s'') => Some (out :: outs, s'')
          | None => None
          end
      | (Raise _, _) => None
      end
  end.

Definition rejected (out : string) : Prop := contains invalid_marker out = true.

(** The three keys of a configuration bundle and their texts. *)
Definition bundle (cfg : gmap string string) (startup running : string) : Prop :=
  dom cfg = ({[ "startup"; "running"; "candidate" ]} : gset string)
  /\ cfg !! "startup" = Some startup
  /\ cfg !! "running" = Some running
  /\ cfg !! "candidate" = Some "".

(** The integer a float stands for, when it stands for one. *)
Definition integral_value (f : float) : option Z :=
  match f with
  | S754_zero _ => Some 0
  | S754_finite sign m e =>
      let magnitude :=
        match e with
        | Z0 => Some (Zpos m)
        | Zpos p => Some (Zpos m * 2 ^ Zpos p)
        | Zneg p =>
            if (Zpos m mod 2 ^ Zpos p =? 0)%Z then Some (Zpos m / 2 ^ Zpos p) else None
        end in
      option_map (fun n => if sign then - n else n) magnitude
  | _ => None
  end.

(** Lines of text, each ended by a line feed. *)
Definition lines (l : list string) : string :=
  fold_right (fun line rest => line +:+ String LF rest) "" l.

Fixpoint one_line (s : string) : bool :=
  match s with
  | EmptyString => true
  | String c s' => negb (Ascii.eqb c LF) && one_line s'
  end.

Definition dashed (s : string) : bool := String.prefix "----" s.

(** The rows of a table as the device prints them under the rule: each on
    a line of its own, then what follows the table. *)
Fixpoint table_body (rows : list string) (tail : string) : string :=
  match rows with
  | [] => tail
  | row :: rows' => String LF (row +:+ table_body rows' tail)
  end.

(** A MAC-table block: header lines, the rule of dashes (what follows its
    first four dashes), the data lines, and the text of the summary after
    the empty line and the word Total, when there is one. *)
Record MacBlock : Type := {
  header : list string;
  rule : string;
  rows : list string;
  summary : option string
}.

Definition summary_text (o : option string) : string :=
  match o with
  | None => ""
  | Some t => total_marker +:+ t
  end.

Definition render (b : MacBlock) : string :=
  lines (header b) +:+ ("----" +:+ rule b) +:+ table_body (rows b) (summary_text (summary b)).

Definition well_formed (b : MacBlock) : Prop :=
  Forall (fun l => one_line l = true /\ dashed l = false) (header b)
  /\ one_line (rule b) = true
  /\ Forall (fun row => one_line row = true) (rows b).

(** A line that is neither a rule of dashes nor the start of a summary. *)
Definition data_line (row : string) : Prop :=
  one_line row = true /\ dashed row = false /\ String.prefix "Total" row = false.

(** The lines the loop of [get_environment] goes through before it meets
    the summary line, and the summary line itself. *)
Fixpoint before_summary (lines : list string) : list string :=
  match lines with
  | [] => []
  | line :: rest =>
      if contains summary_marker line then [] else line :: before_summary rest
  end.

Fixpoint summary_line (lines : list string) : option string :=
  match lines with
  | [] => None
  | line :: rest =>
      if contains summary_marker line then Some line else summary_line rest
  end.

(** What a variable assigned from the [tok] lines holds after [lines]. *)
Fixpoint assigned (tok : string) (lines : list string) (old : option Z) : option Z :=
  match lines with
  | [] => old
  | line :: rest =>
      assigned tok rest
        (if contains tok line
         then match second_int line with Ok v => Some v | Raise _ => old end
         else old)
  end.

(** A line whose number can be read if it is an alloc or a free line. *)
Definition readable (line : string) : Prop :=
  (contains "alloc" line = true -> is_ok (second_int line) = true)
  /\ (contains "free" line = true -> is_ok (second_int line) = true).

(** [line] is the last [tok] line of [lines] and carries the number [v]. *)
Definition last_reading (tok : string) (lines : list string) (v : Z) : Prop :=
  exists before line after,
    lines = before ++ line :: after
    /\ contains tok line = true
    /\ second_int line = Ok v
    /\ Forall (fun l => contains tok l = false) after.

(** Text that is over or goes on with a new line. *)
Definition settled (rest : string) : Prop :=
  rest = "" \/ exists y, rest = String LF y.

(** Puts text in front of the first piece of a split. *)
Definition prepend (p : string) (l : list string) : list string :=
  match l with
  | [] => [p]
  | t :: ts => (p +:+ t) :: ts
  end.

(** What may follow the last row: nothing, or the summary. *)
Definition summary_like (tail : string) : Prop :=
  tail = "" \/ exists t, tail = total_marker +:+ t.

(** The netmiko device type [open] asks for. *)
Definition device_type_of (self : Driver) : string :=
  if String.eqb (transport self) "telnet" then "dell_dnos6_telnet" else "dell_dnos6".


(** [s] ends with [suffix]. *)
Fixpoint ends_with (suffix s : string) : bool :=
  String.eqb suffix s
  || match s with
     | EmptyString => false
     | String _ s' => ends_with suffix s'
     end.

End Driver.
End DNOS6Driver.

(** ** A scripted device

    A connection that answers every command from a table and records, in
    order, what it was sent; used to run the driver on concrete input. *)

Module Script.
Import DNOS6Driver.

Definition scripted (respond : string -> result string) (active : bool) : Netmiko :=
  {| Session := list string;
     ConnectHandler := fun _ => Ok [];
     enable := fun s => (Ok tt, s);
     disconnect := fun s => (Ok tt, s);
     send_command := fun s cmd => (respond cmd, s ++ [cmd]);
     write_channel := fun s raw => (Ok tt, s ++ [raw]);
     is_active := fun s => (Ok active, s) |}.

(** Helpers that hand their argument back unchanged. *)
Definition plain_helpers : NapalmBase :=
  {| mac := fun m => Ok m;
     canonical_interface_name := fun i => Ok i |}.

(** [float] on a plain decimal literal, digits with at most one point: the
    digits as an integer below 2^53 divided by a power of ten up to 10^22,
    both exact doubles, so that the one rounding of the division is the
    rounding of the literal.  Other text is refused. *)
Fixpoint decimal_digits (acc : Z) (frac : option nat) (seen : bool) (s : string)
  : option (Z * nat) :=
  match s with
  | EmptyString =>
      if seen then Some (acc, match frac with Some k => k | None => O end) else None
  | String c s' =>
      if is_digit c then
        decimal_digits (10 * acc + (code c - 48)) (option_map S frac) true s'
      else if Ascii.eqb c "."%char then
        match frac with
        | None => decimal_digits acc (Some O) seen s'
        | Some _ => None
        end
      else None
  end.

Definition short_decimal (s : string) : result float :=
  match decimal_digits 0 None false (strip s) with
  | Some (n, k) =>
      if (n <? 2 ^ 53)%Z && (k <=? 22)%nat then
        Ok (SFdiv prec emax (binary_normalize prec emax n 0 false)
                            (binary_normalize prec emax (10 ^ Z.of_nat k) 0 false))
      else Raise ValueError
  | None => Raise ValueError
  end.

Definition decimal_builtins : Builtins := {| float_of_string := short_decimal |}.

Definition invalid_input : string := "% Invalid input detected at '^' marker.".

(** A table of answers; a command outside the table is rejected. *)
Fixpoint answer (table : list (string * result string)) (cmd : string) : result string :=
  match table with
  | [] => Ok invalid_input
  | (c, r) :: table' => if String.eqb c cmd then r else answer table' cmd
  end.

Definition switch_table : list (string * result string) :=
  [ ("show startup-config", Ok (lines ["hostname sw1"; "exit"]));
    ("show running-config", Ok (lines ["hostname sw1"; "snmp-server community public"; "exit"]));
    ("show mac address-table",
     Ok (lines
           [ "Aging time is 300 Sec"; "";
             "Vlan     Mac Address           Type        Port";
             "-------- --------------------- ----------- ---------------------";
             "1        0025.90C2.88ED        Dynamic     Gi1/0/48";
             "1        F48E.3841.9628        Management  Vl1";
             "";
             "Total MAC Addresses in use: 2" ]));
    ("show proc cpu",
     Ok (lines
           [ "Memory Utilization Report"; "";
             "status      bytes"; "------ ----------";
             "  free        500"; " alloc       1000"; "";
             "Total CPU Utilization            9.26%      9.75%     9.72%" ]));
    ("show system temperature", Ok "");
    ("show interfaces status", Raise (SocketError "timed out")) ].

Definition switch : Netmiko := scripted (answer switch_table) true.

(** A switch that answers [show proc cpu] with [out]. *)
Definition cpu_report (out : string) : Netmiko :=
  scripted (answer [ ("show proc cpu", Ok out); ("show system temperature", Ok "") ]) true.

(** A switch that answers [show mac address-table] with [out]. *)
Definition mac_report (out : string) : Netmiko :=
  scripted (answer [ ("show mac address-table", Ok out) ]) true.

Definition column_titles : string := "Vlan     Mac Address           Type        Port".
Definition column_rule : string :=
  "---- --------------------- ----------- ---------------------".

(** The block [switch] prints for [show mac address-table]. *)
Definition mac_block : MacBlock :=
  {| header := ["Aging time is 300 Sec"; ""; column_titles];
     rule := column_rule;
     rows := [ "1        0025.90C2.88ED        Dynamic     Gi1/0/48";
               "1        F48E.3841.9628        Management  Vl1" ];
     summary := Some (" MAC Addresses in use: 2" +:+ String LF "") |}.

(** A block whose second row lost its port. *)
Definition short_row_block : MacBlock :=
  {| header := [column_titles];
     rule := column_rule;
     rows := [ "1        0025.90C2.88ED        Dynamic     Gi1/0/48";
               "1        F48E.3841.9628        Management" ];
     summary := None |}.

(** A table whose summary follows the last row without an empty line. *)
Definition adjacent_summary : string :=
  lines [ column_titles;
          "-------- --------------------- ----------- ---------------------";
          "1        0025.90C2.88ED        Dynamic     Gi1/0/48";
          "Total MAC Addresses in use: 1" ].

(** A CPU report with the summary line ahead of the memory lines. *)
Definition summary_first : string :=
  lines [ "Total CPU Utilization            9.26%      9.75%     9.72%";
          "  free        500"; " alloc       1000" ].

(** A CPU report that is only the words of the summary line. *)
Definition bare_summary : string := "Total CPU Utilization".

(** Instances over these switches whose connection has been sent [log]. *)
Definition on_cpu_report (out : string) (log : list string) : @Driver (cpu_report out) :=
  {| transport := "ssh"; inline_transfer := false; port := 22;
     use_canonical_interface := false;
     device := Some (log : @Session (cpu_report out)) |}.

Definition on_mac_report (out : string) (log : list string) : @Driver (mac_report out) :=
  {| transport := "ssh"; inline_transfer := false; port := 22;
     use_canonical_interface := false;
     device := Some (log : @Session (mac_report out)) |}.

(** A switch that knows one command, [cmd], and answers it with [out]. *)
Definition report (cmd out : string) : Netmiko :=
  scripted (answer [ (cmd, Ok out) ]) true.

Definition on_report (cmd out : string) (log : list string) : @Driver (report cmd out) :=
  {| transport := "ssh"; inline_transfer := false; port := 22;
     use_canonical_interface := false;
     device := Some (log : @Session (report cmd out)) |}.

(** A connection that can be made or not, whose [enable] succeeds or not,
    whose commands time out and whose channel is closed. *)
Definition faulty (connects enables : bool) : Netmiko :=
  {| Session := list string;
     ConnectHandler := fun _ =>
       if connects then Ok [] else Raise (OtherError "NetMikoTimeoutException");
     enable := fun s => (if enables then Ok tt else Raise ValueError, s ++ ["enable"]);
     disconnect := fun s => (Ok tt, s ++ ["disconnect"]);
     send_command := fun s cmd => (Raise (OtherError "NetMikoTimeoutException"), s ++ [cmd]);
     write_channel := fun s raw => (Raise (SocketError "closed"), s ++ [raw]);
     is_active := fun s => (Ok false, s) |}.

Definition on_faulty (connects enables : bool) (log : option (list string))
  : @Driver (faulty connects enables) :=
  {| transport := "ssh"; inline_transfer := false; port := 22;
     use_canonical_interface := false;
     device := (log : option (@Session (faulty connects enables))) |}.

(** What the device prints for [show arp]. *)
Definition arp_block : MacBlock :=
  {| header := [ "Age Time (seconds)............................. 1200"; "";
                 "  IP Address      MAC Address     Interface   Type     Age" ];
     rule := "----------- ----------------- ----------- -------- -----------";
     rows := [ "10.10.10.1      0025.90C2.88ED    Vl1         Dynamic  2h 30m 15s";
               "10.10.10.2      F48E.3841.9628    Vl1         Local    n/a";
               "" ];
     summary := None |}.



Definition python3_re : Regex := {| re_space := is_space |}.

(** A file-system probe over [switch] with a fixed answer. *)
Definition probe (answer : result string) : @FileSystem switch :=
  @Build_FileSystem switch
    (fun s : @Session switch =>
       (answer, ((s : list string) ++ ["dir"] : @Session switch))).



(** What the device prints for the detail of one interface. *)
Definition lldp_detail_text : string :=
  lines [ "Local Interface: Gi1/0/1"; "Remote Identifier: 1";
          "Chassis ID: 00:25:90:C2:88:ED"; "System Name: core-sw1" ].

(** A table with no rule of dashes at all. *)
Definition ruleless : string := lines ["No entries found"] +:+ "console#".

(** Interface blocks as [re.findall] cuts them from a running
    configuration. *)
Definition uplink_block : string :=
  "description: " +:+ String DQ ("Uplink to core" +:+ String DQ (String LF
    ("no shutdown" +:+ String LF "spanning-tree portfast"))).

Definition parked_block : string :=
  "switchport mode access" +:+ String LF "shutdown".

Definition interface_blocks : list (string * string * string) :=
  [ ("Gi1/0/1", uplink_block, "t"); ("Gi1/0/2", parked_block, "n");
    ("Gi1/0/1", parked_block, "n") ].

(** An instance over [switch] whose connection has been sent [log]. *)
Definition opened (transport : string) (log : list string) : @Driver switch :=
  {| transport := transport;
     inline_transfer := String.eqb transport "telnet";
     port := if String.eqb transport "telnet" then 23 else 22;
     use_canonical_interface := false;
     device := Some (log : @Session switch) |}.

End Script.

(** ** Properties of the command dispatcher *)

Import Re Globals DNOS6Driver.

Section Dispatcher.
Context {netmiko : Netmiko}.

Lemma with_device_same (self : Driver) (s : Session) :
  device self = Some s -> with_device self (Some s) = self.
Proof. destruct self; simpl; intros ->; reflexivity. Qed.

Lemma with_device_twice (self : Driver) (a b : option Session) :
  with_device (with_device self a) b = with_device self b.
Proof. reflexivity. Qed.

Lemma on_device_open {A} (call : Session -> result A * Session) self s :
  device self = Some s ->
  on_device call self = (fst (call s), with_device self (Some (snd (call s)))).
Proof. intros E. unfold on_device. rewrite E. destruct (call s); reflexivity. Qed.

(** While every response is rejected the loop keeps the latest one. *)
Lemma send_until_valid_rejected cmds : forall self s outs s' o,
  device self = Some s ->
  responses s cmds = Some (outs, s') ->
  Forall rejected outs ->
  send_until_valid cmds o self
  = (Ok (fold_left (fun _ out => Some out) outs o), with_device self (Some s')).
Proof.
  induction cmds as [|cmd rest IH]; intros self s outs s' o Hdev Hresp Hrej.
  - simpl in Hresp. injection Hresp as <- <-. simpl.
    rewrite (with_device_same _ _ Hdev). reflexivity.
  - simpl in Hresp.
    destruct (send_command s cmd) as [[out|e] s1] eqn:Hsend; [|discriminate].
    destruct (responses s1 rest) as [[outs1 s2]|] eqn:Hrest; [|discriminate].
    injection Hresp as <- <-.
    inversion Hrej as [|? ? Hout Hrej']; subst.
    simpl. unfold bind. rewrite (on_device_open _ _ _ Hdev), Hsend. simpl.
    unfold rejected in Hout. rewrite Hout. simpl.
    rewrite (IH (with_device self (Some s1)) s1 outs1 s2 (Some out) eq_refl Hrest Hrej').
    reflexivity.
Qed.

(** The loop leaves at the first response that is not rejected. *)
Lemma send_until_valid_first pre : forall self s outs s1 c post out s2 o,
  device self = Some s ->
  responses s pre = Some (outs, s1) ->
  Forall rejected outs ->
  send_command s1 c = (Ok out, s2) ->
  contains invalid_marker out = false ->
  send_until_valid (pre ++ c :: post) o self
  = (Ok (Some out), with_device self (Some s2)).
Proof.
  induction pre as [|cmd rest IH]; intros self s outs s1 c post out s2 o Hdev Hresp Hrej Hsend Hok.
  - simpl in Hresp. injection Hresp as <- <-. simpl.
    unfold bind. rewrite (on_device_open _ _ _ Hdev), Hsend. simpl.
    rewrite Hok. reflexivity.
  - simpl in Hresp.
    destruct (send_command s cmd) as [[out0|e] s0] eqn:Hsend0; [|discriminate].
    destruct (responses s0 rest) as [[outs1 s1']|] eqn:Hrest; [|discriminate].
    injection Hresp as <- <-.
    inversion Hrej as [|? ? Hout Hrej']; subst.
    simpl. unfold bind. rewrite (on_device_open _ _ _ Hdev), Hsend0. simpl.
    unfold rejected in Hout. rewrite Hout. simpl.
    erewrite (IH (with_device self (Some s0)) s0); eauto.
Qed.

(** C1, as the code has it: on an open session and for a list with at
    least one candidate, [_send_command] sends the candidates in order.  If
    the candidates before [c] are all answered with the invalid-command
    marker and the answer to [c] is free of it, that answer is returned and
    nothing after [c] is sent; if every candidate is answered with the
    marker, the answer to the last one is returned and no error is raised. *)
Theorem send_command_candidates (self : Driver) (s : Session) :
  device self = Some s ->
  (forall pre c post outs s1 out s2,
     responses s pre = Some (outs, s1) ->
     Forall rejected outs ->
     send_command s1 c = (Ok out, s2) ->
     contains invalid_marker out = false ->
     _send_command (Several (pre ++ c :: post)) self
     = (Ok out, with_device self (Some s2)))
  /\
  (forall cmds outs last s',
     responses s cmds = Some (outs ++ [last], s') ->
     Forall rejected (outs ++ [last]) ->
     _send_command (Several cmds) self
     = (Ok last, with_device self (Some s'))).
Proof.
  intros Hdev. split.
  - intros pre c post outs s1 out s2 Hresp Hrej Hsend Hok.
    unfold _send_command, try_except, bind.
    rewrite (send_until_valid_first pre self s outs s1 c post out s2 None
               Hdev Hresp Hrej Hsend Hok).
    reflexivity.
  - intros cmds outs last s' Hresp Hrej.
    unfold _send_command, try_except, bind.
    rewrite (send_until_valid_rejected cmds self s _ s' None Hdev Hresp Hrej).
    rewrite fold_left_app. reflexivity.
Qed.

(** A single command is sent as it is. *)
Lemma send_command_one (self : Driver) (s s' : Session) (c out : string) :
  device self = Some s ->
  send_command s c = (Ok out, s') ->
  _send_command (One c) self = (Ok out, with_device self (Some s')).
Proof.
  intros Hdev Hsend. unfold _send_command, try_except.
  rewrite (on_device_open _ _ _ Hdev), Hsend. reflexivity.
Qed.

(** A transport failure reaches the handler, whose [raise] names a class
    the module never imported. *)
Lemma send_command_socket_error (self : Driver) (s s' : Session) (c msg : string) :
  device self = Some s ->
  send_command s c = (Raise (SocketError msg), s') \/
  send_command s c = (Raise (EOFError msg), s') ->
  _send_command (One c) self
  = (Raise (NameError "ConnectionClosedException"), with_device self (Some s')).
Proof.
  intros Hdev [Hsend|Hsend]; unfold _send_command, try_except;
    rewrite (on_device_open _ _ _ Hdev), Hsend; reflexivity.
Qed.

End Dispatcher.

(** C1 at the empty list: the loop body never runs, [output] stays unbound
    and the [return] raises. *)
Lemma send_command_no_candidates :
  @_send_command Script.switch (Several []) (Script.opened "ssh" [])
  = (Raise (UnboundLocalError "output"), Script.opened "ssh" []).
Proof. reflexivity. Qed.

Lemma send_command_candidates_witness :
  @_send_command Script.switch
    (Several ["show mac-address-table"; "show mac address-table"; "show bridge"])
    (Script.opened "ssh" [])
  = (Ok (lines
           [ "Aging time is 300 Sec"; "";
             "Vlan     Mac Address           Type        Port";
             "-------- --------------------- ----------- ---------------------";
             "1        0025.90C2.88ED        Dynamic     Gi1/0/48";
             "1        F48E.3841.9628        Management  Vl1";
             "";
             "Total MAC Addresses in use: 2" ]),
     Script.opened "ssh" ["show mac-address-table"; "show mac address-table"])
  /\
  @_send_command Script.switch
    (Several ["show bridge"; "show fdb"]) (Script.opened "ssh" [])
  = (Ok Script.invalid_input, Script.opened "ssh" ["show bridge"; "show fdb"]).
Proof.
  destruct (@send_command_candidates Script.switch (Script.opened "ssh" []) []
              eq_refl) as [Hfirst Hlast].
  split.
  - apply (Hfirst ["show mac-address-table"] "show mac address-table" ["show bridge"]
             [Script.invalid_input] ["show mac-address-table"]).
    + reflexivity.
    + repeat constructor.
    + reflexivity.
    + reflexivity.
  - apply (Hlast ["show bridge"; "show fdb"] [Script.invalid_input]).
    + reflexivity.
    + repeat constructor.
Defined.

(** C5 on the scripted switch: the connection raises a socket error on
    [show interfaces status]; what leaves [_send_command] is the NameError
    of its own handler, not a connection-closed error. *)
Theorem send_command_transport_failure :
  @_send_command Script.switch (One "show interfaces status") (Script.opened "ssh" [])
  = (Raise (NameError "ConnectionClosedException"),
     Script.opened "ssh" ["show interfaces status"])
  /\
  @_send_command Script.switch
    (Several ["show interface status"; "show interfaces status"])
    (Script.opened "ssh" [])
  = (Raise (NameError "ConnectionClosedException"),
     Script.opened "ssh" ["show interface status"; "show interfaces status"]).
Proof. split; reflexivity. Qed.

(** ** Liveness *)

Section Liveness.
Context {netmiko : Netmiko}.

(** Before [open] there is no connection, whatever the transport. *)
Lemma is_alive_before_open (self : Driver) :
  device self = None -> is_alive self = (Ok (alive false), self).
Proof. intros E. unfold is_alive. rewrite E. reflexivity. Qed.

Lemma init_not_open transport inline port canonical self :
  init transport inline port canonical = Ok self -> device self = None.
Proof.
  unfold init, rbind. destruct (default_port transport); [|discriminate].
  intros [= <-]. reflexivity.
Qed.

(** Over SSH the zero byte is written and the transport is asked. *)
Lemma is_alive_ssh (self : Driver) (s s1 s2 : Session) (b : bool) :
  String.eqb (transport self) "telnet" = false ->
  device self = Some s ->
  write_channel s null = (Ok tt, s1) ->
  is_active s1 = (Ok b, s2) ->
  is_alive self = (Ok (alive b), with_device self (Some s2)).
Proof.
  intros Ht Hdev Hw Ha. unfold is_alive. rewrite Hdev, Ht.
  unfold try_except, bind.
  rewrite (on_device_open _ _ _ Hdev), Hw. simpl.
  unfold on_device. simpl. rewrite Ha. reflexivity.
Qed.

Lemma is_alive_ssh_io_error (self : Driver) (s s1 : Session) (e : exn) :
  String.eqb (transport self) "telnet" = false ->
  device self = Some s ->
  (exists msg, e = SocketError msg \/ e = EOFError msg) ->
  write_channel s null = (Raise e, s1) ->
  is_alive self = (Ok (alive false), with_device self (Some s1)).
Proof.
  intros Ht Hdev [msg [-> | ->]] Hw; unfold is_alive; rewrite Hdev, Ht;
    unfold try_except, bind; rewrite (on_device_open _ _ _ Hdev), Hw;
    reflexivity.
Qed.

(** C6 over Telnet, on any open connection: [telnetlib] was never imported,
    so building the argument of [write_channel] raises NameError; neither
    handler catches it, nothing is written and no flag is returned. *)
Theorem is_alive_telnet_open (inline canonical : bool) (p : Z) (s : Session) :
  is_alive {| transport := "telnet"; inline_transfer := inline; port := p;
              use_canonical_interface := canonical; device := Some s |}
  = (Raise (NameError "telnetlib"),
     {| transport := "telnet"; inline_transfer := inline; port := p;
        use_canonical_interface := canonical; device := Some s |}).
Proof. reflexivity. Qed.

End Liveness.

(** ** get_config *)

Section Config.
Context {netmiko : Netmiko}.

Lemma bundle_intro (startup running : string) :
  bundle {[ "startup" := startup; "running" := running; "candidate" := "" ]}
         startup running.
Proof.
  unfold bundle. split; [|split; [|split]].
  - rewrite !dom_insert_L, dom_singleton_L. set_solver.
  - apply lookup_insert_eq.
  - rewrite lookup_insert_ne by discriminate. apply lookup_insert_eq.
  - rewrite !lookup_insert_ne by discriminate. apply lookup_singleton_eq.
Qed.

Lemma insert_startup (a b out : string) :
  <["startup" := out]>
    ({[ "startup" := a; "running" := b; "candidate" := "" ]} : gmap string string)
  = {[ "startup" := out; "running" := b; "candidate" := "" ]}.
Proof. apply insert_insert_eq. Qed.

Lemma insert_running (a b out : string) :
  <["running" := out]>
    ({[ "startup" := a; "running" := b; "candidate" := "" ]} : gmap string string)
  = {[ "startup" := a; "running" := out; "candidate" := "" ]}.
Proof.
  rewrite insert_insert_ne by discriminate.
  rewrite insert_insert_eq. reflexivity.
Qed.

(** C7: on an open session whose sends succeed, [get_config] answers a
    dictionary with exactly the keys startup, running and candidate;
    candidate is the empty text, an unselected blob is the empty text and a
    selected blob is the device output as received.  With the selector
    running, a non-empty output gives a non-empty running text. *)
Theorem get_config_bundle (self : Driver) (s : Session) :
  device self = Some s ->
  (forall out s1,
     send_command s "show startup-config" = (Ok out, s1) ->
     exists cfg,
       get_config "startup" self = (Ok cfg, with_device self (Some s1))
       /\ bundle cfg out "")
  /\
  (forall out s1,
     send_command s "show running-config" = (Ok out, s1) ->
     exists cfg,
       get_config "running" self = (Ok cfg, with_device self (Some s1))
       /\ bundle cfg "" out
       /\ (out <> "" -> cfg !! "running" <> Some ""))
  /\
  (forall out1 s1 out2 s2,
     send_command s "show startup-config" = (Ok out1, s1) ->
     send_command s1 "show running-config" = (Ok out2, s2) ->
     exists cfg,
       get_config "all" self = (Ok cfg, with_device self (Some s2))
       /\ bundle cfg out1 out2).
Proof.
  intros Hdev. split; [|split].
  - intros out s1 Hsend.
    exists {[ "startup" := out; "running" := ""; "candidate" := "" ]}.
    split; [|apply bundle_intro].
    unfold get_config, bind, ret. simpl.
    rewrite (send_command_one self s s1 _ out Hdev Hsend).
    rewrite insert_startup. reflexivity.
  - intros out s1 Hsend.
    exists {[ "startup" := ""; "running" := out; "candidate" := "" ]}.
    split; [|split; [apply bundle_intro|]].
    + unfold get_config, bind, ret. simpl.
      rewrite (send_command_one self s s1 _ out Hdev Hsend).
      rewrite insert_running. reflexivity.
    + intros Hne. rewrite lookup_insert_ne by discriminate.
      rewrite lookup_insert_eq. congruence.
  - intros out1 s1 out2 s2 Hsend1 Hsend2.
    exists {[ "startup" := out1; "running" := out2; "candidate" := "" ]}.
    split; [|apply bundle_intro].
    unfold get_config, bind, ret. simpl.
    rewrite (send_command_one self s s1 _ out1 Hdev Hsend1).
    rewrite (send_command_one (with_device self (Some s1)) s1 s2 _ out2 eq_refl Hsend2).
    rewrite insert_startup, insert_running. reflexivity.
Qed.

End Config.

(** ** Table rows *)

Section Rows.
Context {netmiko : Netmiko} {napalm : NapalmBase}.

Lemma among_true_iff (s : string) (l : list string) :
  among s l = true <-> In s l.
Proof.
  unfold among. rewrite existsb_exists. split.
  - intros [x [Hin Heq]]. apply String.eqb_eq in Heq. subst. exact Hin.
  - intros Hin. exists s. split; [exact Hin | apply String.eqb_refl].
Qed.

(** C2, as the code has it: when the helpers accept the MAC and the
    interface and the VLAN is an integer, the row gives an entry that is
    static exactly when the lower-cased type tag is management or static
    and active exactly when the lower-cased type tag is dynamic; with any
    other tag it is neither; moves is -1 and last_move is -1.0. *)
Theorem process_mac_fields_flags (self : Driver)
    (vlan mac_addr mac_type interface m i : string) (v : Z) :
  mac mac_addr = Ok m ->
  _canonical_int self interface = Ok i ->
  int_of_string vlan = Ok v ->
  exists e,
    _process_mac_fields self vlan mac_addr mac_type interface = Ok e
    /\ mac_mac e = m /\ mac_interface e = i /\ mac_vlan e = v
    /\ (mac_static e = true
         <-> lower mac_type = "management" \/ lower mac_type = "static")
    /\ (mac_active e = true <-> lower mac_type = "dynamic")
    /\ (lower mac_type <> "management" -> lower mac_type <> "static" ->
         lower mac_type <> "dynamic" ->
         mac_static e = false /\ mac_active e = false)
    /\ mac_moves e = -1
    /\ mac_last_move e = minus_one
    /\ integral_value (mac_last_move e) = Some (-1).
Proof.
  intros Hm Hi Hv. unfold _process_mac_fields. rewrite Hm, Hi, Hv. simpl.
  eexists. split; [reflexivity|]. simpl.
  assert (Hs : among (lower mac_type) ["management"; "static"] = true
               <-> lower mac_type = "management" \/ lower mac_type = "static").
  { rewrite among_true_iff. simpl. intuition congruence. }
  assert (Ha : among (lower mac_type) ["dynamic"] = true
               <-> lower mac_type = "dynamic").
  { rewrite among_true_iff. simpl. intuition congruence. }
  repeat (split; [first [reflexivity | assumption]|]).
  split; [|repeat split].
  intros N1 N2 N3. split.
  - apply not_true_is_false. intros H. destruct (proj1 Hs H); contradiction.
  - apply not_true_is_false. intros H. exact (N3 (proj1 Ha H)).
Qed.

(** C3: a row whose age field is n/a gets the age -1.0; otherwise the last
    character of the hour, minute and second fields is dropped, the rest
    is read as integers and the age is hours*3600 + minutes*60 + seconds
    converted to a float.  The fields 2h 30m 15s give 9015.0. *)
Theorem process_arp_fields_age (self : Driver)
    (ip mac_addr interface mac_type i a : string) :
  _canonical_int self interface = Ok i ->
  mac mac_addr = Ok a ->
  (forall m s,
     _process_arp_fields self ip mac_addr interface mac_type "n/a" m s
     = Ok {| arp_interface := i; arp_mac := a; arp_ip := ip; arp_age := minus_one |}
     /\ integral_value minus_one = Some (-1))
  /\
  (forall h m s hours minutes seconds age,
     h <> "n/a" ->
     int_of_string (drop_last h) = Ok hours ->
     int_of_string (drop_last m) = Ok minutes ->
     int_of_string (drop_last s) = Ok seconds ->
     float_of_int (hours * 3600 + minutes * 60 + seconds) = Ok age ->
     _process_arp_fields self ip mac_addr interface mac_type h m s
     = Ok {| arp_interface := i; arp_mac := a; arp_ip := ip; arp_age := age |})
  /\
  (exists age,
     arp_row self [ip; mac_addr; interface; mac_type; "2h"; "30m"; "15s"]
     = Ok {| arp_interface := i; arp_mac := a; arp_ip := ip; arp_age := age |}
     /\ integral_value age = Some 9015).
Proof.
  intros Hi Ha. split; [|split].
  - intros m s. split; [|reflexivity].
    unfold _process_arp_fields. simpl. rewrite Hi, Ha. reflexivity.
  - intros h m s hours minutes seconds age Hna Hh Hm Hs Hage.
    unfold _process_arp_fields.
    destruct (String.eqb_spec h "n/a") as [E|_]; [contradiction|].
    rewrite Hh, Hm, Hs. simpl. rewrite Hi, Ha. simpl. rewrite Hage. reflexivity.
  - exists (S754_finite false 4956048662200320 (-39)). split; [|reflexivity].
    unfold arp_row, _process_arp_fields. simpl. rewrite Hi, Ha. reflexivity.
Qed.

End Rows.

(** ** Text lemmas for the table parsers *)

Section Text.

Lemma append_assoc (a b c : string) : (a +:+ b) +:+ c = a +:+ (b +:+ c).
Proof. induction a as [|x a IH]; simpl; [reflexivity | f_equal; exact IH]. Qed.

Lemma append_empty (a : string) : a +:+ "" = a.
Proof. induction a as [|x a IH]; simpl; [reflexivity | f_equal; exact IH]. Qed.

Lemma prefix_cons (a c : ascii) (p s : string) :
  String.prefix (String a p) (String c s) = Ascii.eqb a c && String.prefix p s.
Proof.
  simpl. destruct (ascii_dec a c) as [->|N].
  - rewrite Ascii.eqb_refl. reflexivity.
  - apply Ascii.eqb_neq in N. rewrite N. reflexivity.
Qed.

Lemma prefix_empty (p : string) : p <> "" -> String.prefix p "" = false.
Proof. destruct p; [congruence | reflexivity]. Qed.

(** A pattern without line feed matches at the start of a line only inside
    the line. *)
Lemma prefix_line (p : string) : one_line p = true ->
  forall row rest, settled rest ->
  String.prefix p (row +:+ rest) = String.prefix p row.
Proof.
  induction p as [|a p IH]; intros Hp row rest Hrest.
  - destruct (row +:+ rest), row; reflexivity.
  - simpl in Hp. apply andb_prop in Hp as [Ha Hp].
    destruct row as [|c row].
    + simpl String.append. destruct Hrest as [->|[y ->]]; [reflexivity|].
      rewrite prefix_cons. apply negb_true_iff in Ha. rewrite Ha. reflexivity.
    + change (String c row +:+ rest) with (String c (row +:+ rest)).
      rewrite !prefix_cons, (IH Hp row rest Hrest). reflexivity.
Qed.

Lemma cons_head_prepend (c : ascii) (p : string) (l : list string) :
  cons_head c (prepend p l) = prepend (String c p) l.
Proof. destruct l; reflexivity. Qed.

Lemma prepend_empty (l : list string) : l <> [] -> prepend "" l = l.
Proof. destruct l; [congruence | reflexivity]. Qed.

Lemma prepend_prepend (a b : string) (l : list string) :
  prepend a (prepend b l) = prepend (a +:+ b) l.
Proof. destruct l; simpl; rewrite ?append_assoc; reflexivity. Qed.

Lemma cons_head_nonempty (c : ascii) (l : list string) : cons_head c l <> [].
Proof. destruct l; discriminate. Qed.

Lemma split_dashes_from_nonempty (s : string) : forall m,
  split_dashes_from m s <> [].
Proof.
  induction s as [|c s IH]; intros m; [discriminate|].
  destruct m; cbn [split_dashes_from].
  - destruct (String.prefix "----" (String c s));
      [discriminate | apply cons_head_nonempty].
  - apply cons_head_nonempty.
  - destruct (Ascii.eqb c LF); [apply cons_head_nonempty | apply IH].
Qed.

Lemma split_dashes_from_lf (m : cursor) (x : string) :
  split_dashes_from m (String LF x)
  = cons_head LF (split_dashes_from AtLineStart x).
Proof. destruct m; reflexivity. Qed.

Lemma split_dashes_from_settled (m : cursor) (rest : string) :
  settled rest ->
  split_dashes_from m rest = split_dashes_from AtLineStart rest.
Proof.
  intros [->|[y ->]]; [destruct m; reflexivity|].
  rewrite !split_dashes_from_lf. reflexivity.
Qed.

Lemma one_line_cons (c : ascii) (l : string) :
  one_line (String c l) = true -> Ascii.eqb c LF = false /\ one_line l = true.
Proof.
  simpl. intros H. apply andb_prop in H as [Hc Hl].
  apply negb_true_iff in Hc. split; assumption.
Qed.

Lemma split_dashes_in_line (l : string) : one_line l = true ->
  forall rest,
  split_dashes_from InLine (l +:+ rest) = prepend l (split_dashes_from InLine rest).
Proof.
  induction l as [|c l IH]; intros Hl rest.
  - simpl. symmetry. apply prepend_empty, split_dashes_from_nonempty.
  - apply one_line_cons in Hl as [Hc Hl].
    simpl. unfold after. rewrite Hc, (IH Hl rest).
    apply cons_head_prepend.
Qed.

Lemma split_dashes_line_start (l rest : string) :
  one_line l = true -> dashed l = false -> settled rest ->
  split_dashes_from AtLineStart (l +:+ rest)
  = prepend l (split_dashes_from AtLineStart rest).
Proof.
  intros Hl Hd Hrest. destruct l as [|c l].
  - simpl. symmetry. apply prepend_empty, split_dashes_from_nonempty.
  - change (String c l +:+ rest) with (String c (l +:+ rest)).
    assert (Hp : String.prefix "----" (String c (l +:+ rest)) = false).
    { change (String c (l +:+ rest)) with (String c l +:+ rest).
      rewrite (prefix_line "----" eq_refl _ _ Hrest). exact Hd. }
    apply one_line_cons in Hl as [Hc Hl].
    cbn [split_dashes_from]. rewrite Hp. unfold after. rewrite Hc.
    rewrite (split_dashes_in_line l Hl rest), cons_head_prepend.
    rewrite (split_dashes_from_settled InLine rest Hrest). reflexivity.
Qed.

Lemma split_dashes_in_rule (d : string) : one_line d = true ->
  forall rest,
  split_dashes_from InDelimiter (d +:+ rest) = split_dashes_from InDelimiter rest.
Proof.
  induction d as [|c d IH]; intros Hd rest; [reflexivity|].
  apply one_line_cons in Hd as [Hc Hd].
  simpl. rewrite Hc. apply (IH Hd).
Qed.

Lemma summary_like_settled (tail : string) : summary_like tail -> settled tail.
Proof. intros [->|[t ->]]; [left; reflexivity | right; eexists; reflexivity]. Qed.

Lemma summary_text_like (o : option string) : summary_like (summary_text o).
Proof. destruct o; [right; eexists; reflexivity | left; reflexivity]. Qed.

Lemma table_body_settled (rows : list string) (tail : string) :
  summary_like tail -> settled (table_body rows tail).
Proof.
  destruct rows; simpl; [apply summary_like_settled|].
  intros _. right. eexists. reflexivity.
Qed.

Lemma prefix_nil (s : string) : String.prefix "" s = true.
Proof. destruct s; reflexivity. Qed.

Lemma split_dashes_summary (t : string) :
  split_dashes_from AtLineStart (total_marker +:+ t)
  = prepend total_marker (split_dashes_from InLine t).
Proof.
  change (split_dashes_from AtLineStart (total_marker +:+ t))
    with (cons_head LF (cons_head LF (cons_head "T" (cons_head "o" (cons_head "t"
            (cons_head "a" (cons_head "l" (split_dashes_from InLine t)))))))).
  destruct (split_dashes_from InLine t); reflexivity.
Qed.

(** The piece after the rule holds every row and at most the summary. *)
Lemma split_dashes_body (rows : list string) :
  Forall data_line rows ->
  forall tail, summary_like tail ->
  exists tail' more,
    split_dashes_from AtLineStart (table_body rows tail)
    = table_body rows tail' :: more
    /\ summary_like tail'.
Proof.
  induction rows as [|row rows IH]; intros Hrows tail Htail.
  - simpl. destruct Htail as [->|[t ->]].
    + exists "", []. split; [reflexivity | left; reflexivity].
    + rewrite split_dashes_summary.
      destruct (split_dashes_from InLine t) as [|p more] eqn:E.
      * exfalso. exact (split_dashes_from_nonempty _ _ E).
      * exists (total_marker +:+ p), more.
        split; [reflexivity | right; eexists; reflexivity].
  - inversion Hrows as [|? ? [Hone [Hdash _]] Hrows']; subst.
    destruct (IH Hrows' tail Htail) as (tail' & more & Hpiece & Htail').
    exists tail', more. split; [|exact Htail'].
    simpl table_body. rewrite split_dashes_from_lf.
    rewrite (split_dashes_line_start row _ Hone Hdash (table_body_settled rows tail Htail)).
    rewrite Hpiece. reflexivity.
Qed.

Lemma split_dashes_header (hdr : list string) :
  Forall (fun l => one_line l = true /\ dashed l = false) hdr ->
  forall z,
  split_dashes_from AtLineStart (lines hdr +:+ z)
  = prepend (lines hdr) (split_dashes_from AtLineStart z).
Proof.
  induction hdr as [|h hdr IH]; intros Hhdr z.
  - simpl. symmetry. apply prepend_empty, split_dashes_from_nonempty.
  - inversion Hhdr as [|? ? [Hone Hdash] Hhdr']; subst.
    simpl lines. rewrite append_assoc. simpl String.append.
    rewrite (split_dashes_line_start h _ Hone Hdash)
      by (right; eexists; reflexivity).
    rewrite split_dashes_from_lf, (IH Hhdr' z), cons_head_prepend, prepend_prepend.
    reflexivity.
Qed.

Lemma one_line_append (a b : string) :
  one_line a = true -> one_line b = true -> one_line (a +:+ b) = true.
Proof.
  induction a as [|c a IH]; intros Ha Hb; [exact Hb|].
  apply one_line_cons in Ha as [Hc Ha]. simpl. rewrite Hc. simpl. apply IH; assumption.
Qed.

Lemma split_dashes_render (b : MacBlock) :
  well_formed b -> Forall data_line (rows b) ->
  exists tail' more,
    split_dashes (render b)
    = lines (header b) :: table_body (rows b) tail' :: more
    /\ summary_like tail'.
Proof.
  intros (Hhdr & Hrule & _) Hrows.
  destruct (split_dashes_body (rows b) Hrows _ (summary_text_like (summary b)))
    as (tail' & more & Hpiece & Htail').
  exists tail', more. split; [|exact Htail'].
  unfold split_dashes, render.
  rewrite (split_dashes_header _ Hhdr).
  assert (Hrest : split_dashes_from AtLineStart
                    (("----" +:+ rule b) +:+ table_body (rows b) (summary_text (summary b)))
                  = "" :: table_body (rows b) tail' :: more).
  { change (("----" +:+ rule b) +:+ table_body (rows b) (summary_text (summary b)))
      with (String "-" (("---" +:+ rule b)
                        +:+ table_body (rows b) (summary_text (summary b)))).
    cbn [split_dashes_from].
    replace (String.prefix "----"
               (String "-" (("---" +:+ rule b)
                            +:+ table_body (rows b) (summary_text (summary b)))))
      with true.
    2:{ symmetry.
        change (("---" +:+ rule b) +:+ table_body (rows b) (summary_text (summary b)))
          with (String "-" (String "-" (String "-"
                  (rule b +:+ table_body (rows b) (summary_text (summary b)))))).
        rewrite !prefix_cons, prefix_nil. reflexivity. }
    rewrite (split_dashes_in_rule ("---" +:+ rule b)) by (apply one_line_append; auto).
    rewrite (split_dashes_from_settled InDelimiter)
      by (apply table_body_settled, summary_text_like).
    rewrite Hpiece. reflexivity. }
  rewrite Hrest. simpl. rewrite append_empty. reflexivity.
Qed.

Lemma prefix_append (p t : string) : String.prefix p (p +:+ t) = true.
Proof.
  induction p as [|a p IH]; [apply prefix_nil|].
  simpl String.append. rewrite prefix_cons, Ascii.eqb_refl. exact IH.
Qed.

Lemma before_total_cons (c : ascii) (y : string) :
  before_total (String c y)
  = if String.prefix total_marker (String c y) then "" else String c (before_total y).
Proof. reflexivity. Qed.

Lemma before_total_in_line (row : string) : one_line row = true ->
  forall x, before_total (row +:+ x) = row +:+ before_total x.
Proof.
  induction row as [|c row IH]; intros Hrow x; [reflexivity|].
  apply one_line_cons in Hrow as [Hc Hrow].
  simpl String.append. rewrite before_total_cons.
  unfold total_marker at 1. rewrite prefix_cons, Ascii.eqb_sym, Hc. simpl.
  rewrite (IH Hrow). reflexivity.
Qed.

(** Cutting at the summary leaves the rows, all of them. *)
Lemma before_total_body (rows : list string) :
  Forall data_line rows ->
  forall tail, summary_like tail ->
  before_total (table_body rows tail) = table_body rows "".
Proof.
  induction rows as [|row rows IH]; intros Hrows tail Htail.
  - simpl. destruct Htail as [->|[t ->]]; [reflexivity|].
    change (total_marker +:+ t) with (String LF (String LF "Total" +:+ t)).
    rewrite before_total_cons.
    change (String LF (String LF "Total" +:+ t)) with (total_marker +:+ t).
    rewrite prefix_append. reflexivity.
  - inversion Hrows as [|? ? [Hone [_ _]] Hrows']; subst.
    simpl table_body. rewrite before_total_cons.
    assert (Hp : String.prefix total_marker
                   (String LF (row +:+ table_body rows tail)) = false).
    { unfold total_marker. rewrite prefix_cons. simpl andb.
      destruct row as [|c row].
      - simpl String.append. destruct rows as [|row2 rows2].
        + simpl. destruct Htail as [->|[t ->]]; reflexivity.
        + simpl table_body. rewrite prefix_cons. simpl andb.
          inversion Hrows' as [|? ? [Hone2 [_ Htotal2]] Hrows2]; subst.
          rewrite (prefix_line "Total" eq_refl row2 _
                     (table_body_settled rows2 tail Htail)).
          exact Htotal2.
      - apply one_line_cons in Hone as [Hc _].
        simpl String.append. rewrite prefix_cons, Ascii.eqb_sym, Hc. reflexivity. }
    rewrite Hp, (before_total_in_line row Hone), (IH Hrows' tail Htail).
    reflexivity.
Qed.

Lemma split_lf_nonempty (s : string) : split_lf s <> [].
Proof.
  destruct s as [|c s]; [discriminate|]. simpl.
  destruct (Ascii.eqb c LF); [discriminate | apply cons_head_nonempty].
Qed.

Lemma split_lf_in_line (row : string) : one_line row = true ->
  forall x, split_lf (row +:+ x) = prepend row (split_lf x).
Proof.
  induction row as [|c row IH]; intros Hrow x.
  - simpl. symmetry. apply prepend_empty, split_lf_nonempty.
  - apply one_line_cons in Hrow as [Hc Hrow].
    simpl. rewrite Hc, (IH Hrow). apply cons_head_prepend.
Qed.

Lemma split_lf_body (rows : list string) :
  Forall (fun row => one_line row = true) rows ->
  split_lf (table_body rows "") = "" :: rows.
Proof.
  induction rows as [|row rows IH]; intros Hrows; [reflexivity|].
  inversion Hrows as [|? ? Hone Hrows']; subst.
  simpl. rewrite (split_lf_in_line row Hone), (IH Hrows'). simpl.
  rewrite append_empty. reflexivity.
Qed.

End Text.

(** ** get_mac_address_table *)

Section MacTable.
Context {netmiko : Netmiko} {napalm : NapalmBase}.

Lemma comprehension_ok {A B} (f : A -> result B) (l : list A) :
  Forall (fun a => is_ok (f a) = true) l ->
  exists bs, comprehension f l = Ok bs /\ Forall2 (fun a b => f a = Ok b) l bs.
Proof.
  induction l as [|a l IH]; intros Hl.
  - exists []. split; [reflexivity | constructor].
  - inversion Hl as [|? ? Ha Hl']; subst.
    destruct (IH Hl') as (bs & Hbs & Hall).
    destruct (f a) as [b|e] eqn:Hfa; [|discriminate].
    exists (b :: bs). split.
    + simpl. rewrite Hfa, Hbs. reflexivity.
    + constructor; assumption.
Qed.

Lemma comprehension_raise {A B} (f : A -> result B) (l : list A) (a : A) :
  In a l -> is_ok (f a) = false -> exists e, comprehension f l = Raise e.
Proof.
  induction l as [|x l IH]; intros Hin Ha; [contradiction|].
  simpl. destruct (f x) as [b|e] eqn:Hfx; [|eexists; reflexivity].
  destruct Hin as [->|Hin]; [rewrite Hfx in Ha; discriminate|].
  destruct (IH Hin Ha) as [e ->]. eexists; reflexivity.
Qed.

Lemma mac_row_arity (self : Driver) (fields : list string) :
  length fields <> 4%nat -> mac_row self fields = Raise TypeError.
Proof.
  destruct fields as [|a [|b [|c [|d [|e fields]]]]]; simpl; intros H;
    try reflexivity.
  contradiction.
Qed.

Lemma rstrip_cons (c : ascii) (s : string) :
  is_space c = false -> rstrip (String c s) = String c (rstrip s).
Proof. intros Hc. simpl. rewrite Hc. destruct (rstrip s); reflexivity. Qed.

Lemma split_first (c : ascii) (r : string) :
  is_space c = false -> exists t ts, split (String c r) = String c t :: ts.
Proof.
  intros Hc. simpl. rewrite Hc. destruct r as [|c' r]; [eauto|].
  destruct (is_space c'); [eauto|].
  destruct (split (String c' r)); simpl; eauto.
Qed.

Lemma split_first_two (c1 c2 : ascii) (r : string) :
  is_space c1 = false -> is_space c2 = false ->
  exists t ts, split (String c1 (String c2 r)) = String c1 (String c2 t) :: ts.
Proof.
  intros H1 H2. destruct (split_first c2 r H2) as (t & ts & E).
  exists t, ts. change (split (String c1 (String c2 r)))
    with (if is_space c1 then split (String c2 r)
          else if is_space c2 then String c1 "" :: split (String c2 r)
               else cons_head c1 (split (String c2 r))).
  rewrite H1, H2, E. reflexivity.
Qed.

(** Text that starts with a letter T or with two dashes is no integer. *)
Lemma int_of_string_total (t : string) :
  int_of_string (String "T" t) = Raise ValueError.
Proof.
  unfold int_of_string, strip. cbn [lstrip].
  change (is_space "T") with false. cbn iota.
  rewrite rstrip_cons by reflexivity. reflexivity.
Qed.

Lemma int_of_string_dashes (t : string) :
  int_of_string (String "-" (String "-" t)) = Raise ValueError.
Proof.
  unfold int_of_string, strip. cbn [lstrip].
  change (is_space "-") with false. cbn iota.
  rewrite !rstrip_cons by reflexivity. reflexivity.
Qed.

Lemma process_mac_fields_vlan (self : Driver) (vlan mac_addr mac_type interface : string) :
  int_of_string vlan = Raise ValueError ->
  is_ok (_process_mac_fields self vlan mac_addr mac_type interface) = false.
Proof.
  intros Hv. unfold _process_mac_fields.
  destruct (mac mac_addr); [|reflexivity]. simpl.
  destruct (_canonical_int self interface); [|reflexivity]. simpl.
  rewrite Hv. reflexivity.
Qed.

Lemma mac_row_first_field (self : Driver) (vlan : string) (fields : list string) :
  int_of_string vlan = Raise ValueError ->
  is_ok (mac_row self (vlan :: fields)) = false.
Proof.
  intros Hv. destruct fields as [|b [|c [|d [|e fields]]]]; try reflexivity.
  simpl. apply process_mac_fields_vlan, Hv.
Qed.

(** A row that parses is neither a rule nor the start of a summary. *)
Lemma accepted_row_data_line (self : Driver) (row : string) :
  one_line row = true ->
  row = "" \/ is_ok (mac_row self (split row)) = true ->
  data_line row.
Proof.
  intros Hone Hrow. split; [exact Hone|].
  destruct Hrow as [->|Hok]; [split; reflexivity|].
  split.
  - destruct (dashed row) eqn:Hd; [exfalso|reflexivity].
    unfold dashed in Hd.
    destruct row as [|c1 row]; [discriminate|].
    rewrite prefix_cons in Hd. apply andb_prop in Hd as [H1 Hd].
    destruct row as [|c2 row]; [discriminate|].
    rewrite prefix_cons in Hd. apply andb_prop in Hd as [H2 _].
    apply Ascii.eqb_eq in H1, H2. subst c1 c2.
    destruct (split_first_two "-" "-" row eq_refl eq_refl) as (t & ts & E).
    rewrite E, (mac_row_first_field self _ ts (int_of_string_dashes t)) in Hok.
    discriminate.
  - destruct (String.prefix "Total" row) eqn:Ht; [exfalso|reflexivity].
    destruct row as [|c row]; try discriminate.
    rewrite prefix_cons in Ht. apply andb_prop in Ht as [H1 _].
    apply Ascii.eqb_eq in H1. subst c.
    destruct (split_first "T" row eq_refl) as (t & ts & E).
    rewrite E, (mac_row_first_field self _ ts (int_of_string_total t)) in Hok.
    discriminate.
Qed.

(** On a rendered block the method runs the row parser over the non-empty
    data lines, in order. *)
Lemma mac_table_rows (self : Driver) (s s' : Session) (b : MacBlock) :
  device self = Some s ->
  send_command s "show mac address-table" = (Ok (render b), s') ->
  well_formed b ->
  Forall data_line (rows b) ->
  get_mac_address_table self
  = (comprehension (fun i => mac_row self (split i)) (List.filter nonempty (rows b)),
     with_device self (Some s')).
Proof.
  intros Hdev Hsend Hwf Hrows.
  destruct (split_dashes_render b Hwf Hrows) as (tail' & more & Hsplit & Htail').
  unfold get_mac_address_table, bind, lift.
  rewrite (send_command_one self s s' _ _ Hdev Hsend), Hsplit.
  simpl skipn. unfold index. simpl nth_error. cbn iota beta.
  rewrite (before_total_body _ Hrows _ Htail').
  destruct Hwf as (_ & _ & Hlines).
  rewrite (split_lf_body _ Hlines). reflexivity.
Qed.

(** C4, as the code has it.  The block is a header, a rule of dashes, data
    lines and, optionally, a summary that starts with an empty line followed
    by a line beginning with Total.  When every non-empty data line is a
    well-formed row, the method returns exactly one entry per non-empty
    data line, in order.  When some non-empty data line has a field count
    other than four, the method raises and returns no table. *)
Theorem mac_table_entries (self : Driver) (s s' : Session) (b : MacBlock) :
  device self = Some s ->
  send_command s "show mac address-table" = (Ok (render b), s') ->
  well_formed b ->
  (Forall (fun row => row = "" \/ is_ok (mac_row self (split row)) = true) (rows b) ->
   exists entries,
     get_mac_address_table self = (Ok entries, with_device self (Some s'))
     /\ length entries = length (List.filter nonempty (rows b))
     /\ Forall2 (fun row e => mac_row self (split row) = Ok e)
                (List.filter nonempty (rows b)) entries)
  /\
  (Forall data_line (rows b) ->
   forall row, In row (rows b) -> row <> "" -> length (split row) <> 4%nat ->
   exists e, get_mac_address_table self = (Raise e, with_device self (Some s'))).
Proof.
  intros Hdev Hsend Hwf. split.
  - intros Hok.
    assert (Hrows : Forall data_line (rows b)).
    { destruct Hwf as (_ & _ & Hlines).
      rewrite List.Forall_forall in *. intros row Hin.
      apply (accepted_row_data_line self); auto. }
    rewrite (mac_table_rows self s s' b Hdev Hsend Hwf Hrows).
    destruct (comprehension_ok (fun i => mac_row self (split i))
                (List.filter nonempty (rows b))) as (entries & Hentries & Hall).
    { rewrite List.Forall_forall in *. intros row Hin.
      apply filter_In in Hin as [Hin Hne].
      destruct (Hok row Hin) as [->|H]; [discriminate | exact H]. }
    exists entries. rewrite Hentries. split; [reflexivity|]. split; [|exact Hall].
    symmetry. eapply List.Forall2_length. exact Hall.
  - intros Hrows row Hin Hne Hcount.
    rewrite (mac_table_rows self s s' b Hdev Hsend Hwf Hrows).
    destruct (comprehension_raise (fun i => mac_row self (split i))
                (List.filter nonempty (rows b)) row) as [e He].
    + apply filter_In. split; [exact Hin|].
      unfold nonempty. apply negb_true_iff, String.eqb_neq, Hne.
    + rewrite (mac_row_arity self _ Hcount). reflexivity.
    + exists e. rewrite He. reflexivity.
Qed.

End MacTable.

(** ** get_environment *)

Section EnvironmentFacts.
Context {netmiko : Netmiko} {builtins : Builtins}.

Lemma assigned_none (tok : string) (lines : list string) (old : option Z) :
  Forall (fun l => contains tok l = false) lines -> assigned tok lines old = old.
Proof.
  revert old. induction lines as [|l lines IH]; intros old Hl; [reflexivity|].
  inversion Hl as [|? ? Hno Hl']; subst. simpl. rewrite Hno. apply IH, Hl'.
Qed.

Lemma assigned_last (tok : string) (lines : list string) (v : Z) (old : option Z) :
  last_reading tok lines v -> assigned tok lines old = Some v.
Proof.
  intros (before & line & after & -> & Hin & Hv & Hafter).
  revert old. induction before as [|l before IH]; intros old; simpl.
  - rewrite Hin, Hv. apply assigned_none, Hafter.
  - apply IH.
Qed.

Lemma assigned_some (tok : string) (lines : list string) (v : Z) :
  assigned tok lines None = Some v ->
  exists l, In l lines /\ contains tok l = true.
Proof.
  assert (G : forall old, assigned tok lines old = Some v ->
              old = Some v \/ exists l, In l lines /\ contains tok l = true).
  { induction lines as [|l lines IH]; intros old H; [left; exact H|].
    simpl in H. destruct (contains tok l) eqn:Hc.
    - right. exists l. split; [left; reflexivity | exact Hc].
    - destruct (IH old H) as [E|(l' & Hin & Hl')]; [left; exact E|].
      right. exists l'. split; [right; exact Hin | exact Hl']. }
  intros H. destruct (G None H) as [E|E]; [discriminate | exact E].
Qed.

Lemma assign_if_value (tok line : string) (old new : option Z) :
  assign_if tok line old = Ok new ->
  new = (if contains tok line
         then match second_int line with Ok v => Some v | Raise _ => old end
         else old).
Proof.
  unfold assign_if. destruct (contains tok line); [|congruence].
  destruct (second_int line); simpl; congruence.
Qed.

(** When the loop ends without an error, both variables hold what the
    lines before the summary assigned to them. *)
Lemma scan_cpu_value (lines : list string) : forall st0 st,
  scan_cpu lines st0 = Ok st ->
  used_mem st = assigned "alloc" (before_summary lines) (used_mem st0)
  /\ avail_mem st = assigned "free" (before_summary lines) (avail_mem st0).
Proof.
  induction lines as [|line lines IH]; intros st0 st H.
  - simpl in H. injection H as <-. split; reflexivity.
  - simpl in H. cbn [before_summary].
    destruct (contains summary_marker line).
    + destruct (one_minute line); [|discriminate].
      simpl in H. injection H as <-. split; reflexivity.
    + destruct (assign_if "alloc" line (used_mem st0)) as [u|] eqn:Hu; [|discriminate].
      destruct (assign_if "free" line (avail_mem st0)) as [a|] eqn:Ha; [|discriminate].
      simpl in H. apply IH in H. simpl in H.
      apply assign_if_value in Hu, Ha. subst u a. exact H.
Qed.

Lemma assign_if_readable (tok line : string) (old : option Z) :
  (contains tok line = true -> is_ok (second_int line) = true) ->
  exists new, assign_if tok line old = Ok new.
Proof.
  intros H. unfold assign_if. destruct (contains tok line); [|eauto].
  destruct (second_int line); [simpl; eauto|].
  specialize (H eq_refl). discriminate.
Qed.

(** The loop ends without an error when the lines before the summary are
    readable and the summary line has its percentage. *)
Lemma scan_cpu_ok (lines : list string) :
  Forall readable (before_summary lines) ->
  (forall line, summary_line lines = Some line -> is_ok (one_minute line) = true) ->
  forall st0, exists st, scan_cpu lines st0 = Ok st.
Proof.
  induction lines as [|line lines IH]; intros Hread Hsum st0; [simpl; eauto|].
  simpl in *. destruct (contains summary_marker line).
  - specialize (Hsum line eq_refl).
    destruct (one_minute line); [simpl; eauto | discriminate].
  - inversion Hread as [|? ? [Halloc Hfree] Hread']; subst.
    destruct (assign_if_readable "alloc" line (used_mem st0) Halloc) as [u ->].
    destruct (assign_if_readable "free" line (avail_mem st0) Hfree) as [a ->].
    simpl. apply IH; assumption.
Qed.

(** C8, as the code has it: the loop reads the lines of the CPU output up
    to the first summary line.  When those lines are readable, the last
    alloc line among them carries [a] and the last free line among them
    carries [f], the record has used_ram = a and available_ram = a + f. *)
Theorem get_environment_memory (self : Driver) (s s1 s2 : Session)
    (out temp : string) (a f : Z) :
  device self = Some s ->
  send_command s "show proc cpu" = (Ok out, s1) ->
  send_command s1 "show system temperature" = (Ok temp, s2) ->
  Forall readable (before_summary (splitlines out)) ->
  (forall line, summary_line (splitlines out) = Some line ->
                is_ok (one_minute line) = true) ->
  last_reading "alloc" (before_summary (splitlines out)) a ->
  last_reading "free" (before_summary (splitlines out)) f ->
  exists env,
    get_environment self = (Ok env, with_device self (Some s2))
    /\ used_ram (env_memory env) = a
    /\ available_ram (env_memory env) = a + f.
Proof.
  intros Hdev Hcpu Htemp Hread Hsum Halloc Hfree.
  destruct (scan_cpu_ok _ Hread Hsum
              {| cpu_usage := zero; used_mem := None; avail_mem := None |})
    as [st Hst].
  destruct (scan_cpu_value _ _ _ Hst) as [Hu Ha]. simpl in Hu, Ha.
  rewrite (assigned_last _ _ _ _ Halloc) in Hu.
  rewrite (assigned_last _ _ _ _ Hfree) in Ha.
  eexists. split.
  - unfold get_environment, bind, lift.
    rewrite (send_command_one self s s1 _ out Hdev Hcpu), Hst, Hu, Ha. simpl.
    rewrite (send_command_one (with_device self (Some s1)) s1 s2 _ temp eq_refl Htemp).
    reflexivity.
  - split; reflexivity.
Qed.

(** C10, as the code has it.  When no line before the summary is an alloc
    line, or none is a free line, and the loop itself ends without a parse
    error, building the memory record raises UnboundLocalError.  The method
    returns a record only when an alloc line and a free line both occur
    before the summary line. *)
Theorem get_environment_unbound (self : Driver) (s s1 : Session) (out : string) :
  device self = Some s ->
  send_command s "show proc cpu" = (Ok out, s1) ->
  (forall st,
     scan_cpu (splitlines out)
       {| cpu_usage := zero; used_mem := None; avail_mem := None |} = Ok st ->
     Forall (fun l => contains "alloc" l = false) (before_summary (splitlines out))
     \/ Forall (fun l => contains "free" l = false) (before_summary (splitlines out)) ->
     exists name,
       get_environment self
       = (Raise (UnboundLocalError name), with_device self (Some s1))
       /\ (name = "used_mem" \/ name = "avail_mem"))
  /\
  (forall env self',
     get_environment self = (Ok env, self') ->
     (exists l, In l (before_summary (splitlines out)) /\ contains "alloc" l = true)
     /\ (exists l, In l (before_summary (splitlines out)) /\ contains "free" l = true)).
Proof.
  intros Hdev Hcpu. split.
  - intros st Hst Hnone.
    destruct (scan_cpu_value _ _ _ Hst) as [Hu Ha]. simpl in Hu, Ha.
    unfold get_environment, bind, lift.
    rewrite (send_command_one self s s1 _ out Hdev Hcpu), Hst.
    destruct (used_mem st) as [u|] eqn:Eu.
    + destruct Hnone as [Hnone|Hnone].
      * rewrite (assigned_none _ _ _ Hnone) in Hu. discriminate.
      * rewrite (assigned_none _ _ _ Hnone) in Ha. rewrite Ha.
        exists "avail_mem". split; [reflexivity | right; reflexivity].
    + exists "used_mem". split; [reflexivity | left; reflexivity].
  - intros env self' Henv.
    unfold get_environment, bind, lift in Henv.
    rewrite (send_command_one self s s1 _ out Hdev Hcpu) in Henv.
    destruct (scan_cpu (splitlines out) _) as [st|] eqn:Hst; [|discriminate].
    destruct (scan_cpu_value _ _ _ Hst) as [Hu Ha]. simpl in Hu, Ha.
    destruct (used_mem st) as [u|]; [|discriminate].
    destruct (avail_mem st) as [a|]; [|discriminate].
    split; eapply assigned_some; symmetry; eassumption.
Qed.

End EnvironmentFacts.

(** ** get_lldp_neighbor_detail *)

Section Lldp.
Context {netmiko : Netmiko}.

Lemma split_comma_space_nonempty (s : string) :
  exists cap caps, split_comma_space s = cap :: caps.
Proof.
  destruct s as [|c [|c' s]]; [do 2 eexists; reflexivity ..|].
  change (split_comma_space (String c (String c' s)))
    with (if Ascii.eqb c "," && Ascii.eqb c' " "
          then "" :: split_comma_space s
          else cons_head c (split_comma_space (String c' s))).
  destruct (Ascii.eqb c "," && Ascii.eqb c' " "); [do 2 eexists; reflexivity|].
  destruct (split_comma_space (String c' s)); do 2 eexists; reflexivity.
Qed.

(** The per-interface helper never builds a record: without a Chassis ID
    line the search result has no [group]; with one, the first capability
    is looked up in the unbound [caps_maps]. *)
Lemma lldp_detail_iface_raises (interface : string) (self : Driver) :
  exists e self', _get_lldp_neighbor_detail_iface interface self = (Raise e, self').
Proof.
  unfold _get_lldp_neighbor_detail_iface, bind, lift.
  destruct (_send_command _ self) as [[out|e] self']; [|eauto].
  destruct (search_field "Chassis ID: " out) as [chassis|]; simpl; [|eauto].
  destruct (split_comma_space_nonempty
              (or_empty (search_field "System Capabilities Supported: " out)))
    as (cap & caps & ->).
  simpl. eauto.
Qed.

Lemma lldp_detail_iface_chassis (interface out : string) (self : Driver)
    (s s' : Session) :
  device self = Some s ->
  send_command s ("show lldp remote-device detail " +:+ interface) = (Ok out, s') ->
  _get_lldp_neighbor_detail_iface interface self
  = (Raise (match search_field "Chassis ID: " out with
            | Some _ => NameError "caps_maps"
            | None => AttributeError
            end),
     with_device self (Some s')).
Proof.
  intros Hdev Hsend.
  unfold _get_lldp_neighbor_detail_iface, bind, lift.
  rewrite (send_command_one self s s' _ out Hdev Hsend).
  destruct (search_field "Chassis ID: " out) as [chassis|]; simpl; [|reflexivity].
  destruct (split_comma_space_nonempty
              (or_empty (search_field "System Capabilities Supported: " out)))
    as (cap & caps & ->).
  reflexivity.
Qed.

(** C9 on the code: for an interface name with at least one character the
    method looks its helper up as a global name, which the module does not
    bind; NameError is raised before any command is sent and no record is
    returned. *)
Theorem lldp_neighbor_detail_one_interface (c : ascii) (name : string) (self : Driver) :
  get_lldp_neighbor_detail (String c name) self
  = (Raise (NameError "_get_lldp_neighbor_detail_iface"), self).
Proof. reflexivity. Qed.

End Lldp.

(** ** Runs on the scripted switch *)

Lemma process_mac_fields_flags_witness :
  exists e,
    @_process_mac_fields Script.switch Script.plain_helpers (Script.opened "ssh" [])
      "1" "F48E.3841.9628" "Management" "Vl1" = Ok e
    /\ mac_static e = true /\ mac_active e = false
    /\ mac_moves e = -1 /\ mac_last_move e = minus_one.
Proof.
  destruct (@process_mac_fields_flags Script.switch Script.plain_helpers
              (Script.opened "ssh" []) "1" "F48E.3841.9628" "Management" "Vl1"
              "F48E.3841.9628" "Vl1" 1 eq_refl eq_refl eq_refl)
    as (e & He & _ & _ & _ & Hs & Ha & _ & Hm & Hl & _).
  exists e. split; [exact He|].
  split; [apply Hs; left; reflexivity|].
  split; [|split; assumption].
  apply not_true_is_false. intros H. apply Ha in H. discriminate.
Defined.

(** C2 as stated, at the tag the device prints: Dynamic is not exactly
    dynamic, and the entry is active. *)
Lemma process_mac_fields_capital_dynamic :
  exists e,
    @_process_mac_fields Script.switch Script.plain_helpers (Script.opened "ssh" [])
      "1" "0025.90C2.88ED" "Dynamic" "Gi1/0/48" = Ok e
    /\ mac_active e = true
    /\ "Dynamic" <> "dynamic".
Proof.
  eexists. split; [reflexivity|]. split; [reflexivity | discriminate].
Qed.

Lemma process_arp_fields_age_witness :
  @_process_arp_fields Script.switch Script.plain_helpers (Script.opened "ssh" [])
    "10.10.10.1" "0025.90C2.88ED" "Vl1" "Dynamic" "n/a" "" ""
  = Ok {| arp_interface := "Vl1"; arp_mac := "0025.90C2.88ED";
          arp_ip := "10.10.10.1"; arp_age := minus_one |}
  /\
  @_process_arp_fields Script.switch Script.plain_helpers (Script.opened "ssh" [])
    "10.10.10.1" "0025.90C2.88ED" "Vl1" "Dynamic" "2h" "30m" "15s"
  = Ok {| arp_interface := "Vl1"; arp_mac := "0025.90C2.88ED";
          arp_ip := "10.10.10.1";
          arp_age := S754_finite false 4956048662200320 (-39) |}.
Proof.
  destruct (@process_arp_fields_age Script.switch Script.plain_helpers
              (Script.opened "ssh" []) "10.10.10.1" "0025.90C2.88ED" "Vl1" "Dynamic"
              "Vl1" "0025.90C2.88ED" eq_refl eq_refl) as (Hna & Hage & _).
  split.
  - exact (proj1 (Hna "" "")).
  - apply (Hage "2h" "30m" "15s" 2 30 15).
    + discriminate.
    + reflexivity.
    + reflexivity.
    + reflexivity.
    + reflexivity.
Defined.

Lemma get_config_bundle_witness :
  exists cfg,
    @get_config Script.switch "running" (Script.opened "ssh" [])
    = (Ok cfg, Script.opened "ssh" ["show running-config"])
    /\ bundle cfg "" (lines ["hostname sw1"; "snmp-server community public"; "exit"])
    /\ cfg !! "running" <> Some "".
Proof.
  destruct (@get_config_bundle Script.switch (Script.opened "ssh" []) [] eq_refl)
    as (_ & Hrunning & _).
  destruct (Hrunning (lines ["hostname sw1"; "snmp-server community public"; "exit"])
              ["show running-config"] eq_refl) as (cfg & Hcfg & Hbundle & Hne).
  exists cfg. split; [exact Hcfg|]. split; [exact Hbundle|].
  apply Hne. discriminate.
Defined.

Lemma mac_table_entries_witness :
  (exists entries,
     @get_mac_address_table Script.switch Script.plain_helpers (Script.opened "ssh" [])
     = (Ok entries, Script.opened "ssh" ["show mac address-table"])
     /\ length entries = 2%nat)
  /\
  (exists e,
     @get_mac_address_table (Script.mac_report (render Script.short_row_block))
       Script.plain_helpers (Script.on_mac_report _ [])
     = (Raise e, Script.on_mac_report _ ["show mac address-table"])).
Proof.
  split.
  - assert (Hwf : well_formed Script.mac_block)
      by (split; [|split]; repeat constructor).
    destruct (@mac_table_entries Script.switch Script.plain_helpers
                (Script.opened "ssh" []) [] ["show mac address-table"]
                Script.mac_block eq_refl eq_refl Hwf) as [Hrows _].
    assert (Hok : Forall (fun row => row = "" \/
                    is_ok (@mac_row Script.switch Script.plain_helpers
                             (Script.opened "ssh" []) (split row)) = true)
                  (rows Script.mac_block))
      by (repeat constructor).
    destruct (Hrows Hok) as (entries & Hentries & Hlen & _).
    exists entries. split; [exact Hentries | exact Hlen].
  - assert (Hwf : well_formed Script.short_row_block)
      by (split; [|split]; repeat constructor).
    destruct (@mac_table_entries (Script.mac_report (render Script.short_row_block))
                Script.plain_helpers (Script.on_mac_report _ []) []
                ["show mac address-table"] Script.short_row_block eq_refl eq_refl Hwf)
      as [_ Hshort].
    assert (Hdata : Forall data_line (rows Script.short_row_block))
      by (repeat constructor).
    apply (Hshort Hdata "1        F48E.3841.9628        Management").
    + right. left. reflexivity.
    + discriminate.
    + vm_compute. discriminate.
Defined.

(** C4 as stated, on a table whose Total line follows the last row
    directly: the line is parsed as a row and the call raises. *)
Lemma mac_table_adjacent_summary :
  @get_mac_address_table (Script.mac_report Script.adjacent_summary)
    Script.plain_helpers (Script.on_mac_report _ [])
  = (Raise TypeError, Script.on_mac_report _ ["show mac address-table"]).
Proof. reflexivity. Qed.

Lemma get_environment_memory_witness :
  exists env,
    @get_environment Script.switch Script.decimal_builtins (Script.opened "ssh" [])
    = (Ok env, Script.opened "ssh" ["show proc cpu"; "show system temperature"])
    /\ used_ram (env_memory env) = 1000
    /\ available_ram (env_memory env) = 1000 + 500.
Proof.
  apply (@get_environment_memory Script.switch Script.decimal_builtins
           (Script.opened "ssh" []) [] ["show proc cpu"]
           ["show proc cpu"; "show system temperature"]
           (lines [ "Memory Utilization Report"; "";
                    "status      bytes"; "------ ----------";
                    "  free        500"; " alloc       1000"; "";
                    "Total CPU Utilization            9.26%      9.75%     9.72%" ])
           "" 1000 500).
  - reflexivity.
  - reflexivity.
  - reflexivity.
  - repeat constructor; discriminate.
  - intros line Hline. vm_compute in Hline. injection Hline as <-. reflexivity.
  - exists [ "Memory Utilization Report"; ""; "status      bytes";
             "------ ----------"; "  free        500" ],
           " alloc       1000", [""].
    split; [reflexivity|]. split; [reflexivity|]. split; [reflexivity|].
    repeat constructor.
  - exists [ "Memory Utilization Report"; ""; "status      bytes";
             "------ ----------" ],
           "  free        500", [" alloc       1000"; ""].
    split; [reflexivity|]. split; [reflexivity|]. split; [reflexivity|].
    repeat constructor.
Defined.

(** C8 as stated, with alloc=1000 and free=500 in the text after the
    summary line: the loop has left before it reads them. *)
Lemma get_environment_summary_first :
  @get_environment (Script.cpu_report Script.summary_first) Script.decimal_builtins
    (Script.on_cpu_report _ [])
  = (Raise (UnboundLocalError "used_mem"), Script.on_cpu_report _ ["show proc cpu"]).
Proof. reflexivity. Qed.

Lemma get_environment_unbound_witness :
  (exists name,
     @get_environment (Script.cpu_report Script.summary_first) Script.decimal_builtins
       (Script.on_cpu_report _ [])
     = (Raise (UnboundLocalError name), Script.on_cpu_report _ ["show proc cpu"])
     /\ (name = "used_mem" \/ name = "avail_mem"))
  /\
  (exists l,
     In l (before_summary (splitlines
             (lines [ "Memory Utilization Report"; "";
                      "status      bytes"; "------ ----------";
                      "  free        500"; " alloc       1000"; "";
                      "Total CPU Utilization            9.26%      9.75%     9.72%" ])))
     /\ contains "alloc" l = true).
Proof.
  split.
  - destruct (@get_environment_unbound (Script.cpu_report Script.summary_first)
                Script.decimal_builtins (Script.on_cpu_report _ []) [] ["show proc cpu"]
                Script.summary_first eq_refl eq_refl) as [Hunbound _].
    eapply Hunbound.
    + reflexivity.
    + left. constructor.
  - destruct (@get_environment_unbound Script.switch Script.decimal_builtins
                (Script.opened "ssh" []) [] ["show proc cpu"] _ eq_refl eq_refl)
      as [_ Hreturns].
    eapply Hreturns. reflexivity.
Defined.

(** C10 as stated, on a report that has no alloc line at all: the summary
    line has no fifth word and the error is IndexError. *)
Lemma get_environment_bare_summary :
  @get_environment (Script.cpu_report Script.bare_summary) Script.decimal_builtins
    (Script.on_cpu_report _ [])
  = (Raise IndexError, Script.on_cpu_report _ ["show proc cpu"])
  /\ Forall (fun l => contains "alloc" l = false)
            (before_summary (splitlines Script.bare_summary)).
Proof. split; [reflexivity | constructor]. Qed.

(** * Further properties of the driver *)

(** ** Construction, open and close *)

Section Lifecycle.
Context {netmiko : Netmiko}.

(** X1: the constructor looks the default port up before it reads the port
    option, so a transport other than ssh and telnet raises KeyError even
    when a port is given; an instance that is built is closed, has the
    port given or else 22 (ssh) or 23 (telnet), and over telnet always
    transfers inline. *)
Theorem init_transport (t : string) (inline canonical : bool) (p : option Z) :
  (t <> "ssh" -> t <> "telnet" -> init t inline p canonical = Raise (KeyError t))
  /\
  (forall self,
     init t inline p canonical = Ok self ->
     (t = "ssh" \/ t = "telnet")
     /\ device self = None
     /\ transport self = t
     /\ inline_transfer self = (if String.eqb t "telnet" then true else inline)
     /\ port self = match p with
                    | Some q => q
                    | None => if String.eqb t "telnet" then 23 else 22
                    end).
Proof.
  unfold init, default_port, rbind. split.
  - intros Hssh Htelnet.
    destruct (String.eqb_spec t "ssh") as [E|_]; [contradiction|].
    destruct (String.eqb_spec t "telnet") as [E|_]; [contradiction|].
    reflexivity.
  - intros self.
    destruct (String.eqb_spec t "ssh") as [->|_].
    + intros [= <-]. simpl. destruct p; auto 10.
    + destruct (String.eqb_spec t "telnet") as [->|_]; [|discriminate].
      intros [= <-]. simpl. destruct p; auto 10.
Qed.

(** X2: [open] asks netmiko for the device type of the transport.  When the
    connection cannot be made the error is passed on and the instance
    stays closed; when it is made it is stored first and [enable] is called
    on it, so an error of [enable] is passed on with the connection kept
    in the instance. *)
Theorem open_outcomes (self : Driver) :
  (forall e,
     ConnectHandler (device_type_of self) = Raise e ->
     open self = (Raise e, self))
  /\
  (forall s r s',
     ConnectHandler (device_type_of self) = Ok s ->
     enable s = (r, s') ->
     open self = (r, with_device self (Some s'))).
Proof.
  unfold open, device_type_of. split.
  - intros e ->. reflexivity.
  - intros s r s' -> Hen. unfold on_device. simpl. rewrite Hen. reflexivity.
Qed.

(** X3: [close] on an instance that was never opened raises AttributeError;
    on an open one it disconnects and leaves the connection object in the
    instance, so that a later [is_alive] still takes the instance for open
    and a second [close] disconnects again. *)
Theorem close_outcomes (self : Driver) :
  (device self = None -> close self = (Raise AttributeError, self))
  /\
  (forall s r s',
     device self = Some s ->
     disconnect s = (r, s') ->
     close self = (r, with_device self (Some s'))
     /\ device (snd (close self)) = Some s'
     /\ close (snd (close self))
        = (fst (disconnect s'), with_device self (Some (snd (disconnect s'))))).
Proof.
  unfold close, on_device. split.
  - intros ->. reflexivity.
  - intros s r s' -> Hd. rewrite Hd. simpl.
    split; [reflexivity|]. split; [reflexivity|].
    destruct (disconnect s'); reflexivity.
Qed.

(** X4: over SSH, on an open instance, [is_alive] writes the zero byte and
    answers the transport's own flag; a socket error or end of stream,
    from the write or from the question, gives not-alive instead of an
    error, and after a failed write the transport is not asked. *)
Theorem is_alive_ssh_probe (self : Driver) (s : Session) :
  String.eqb (transport self) "telnet" = false ->
  device self = Some s ->
  (forall s1 b s2,
     write_channel s null = (Ok tt, s1) ->
     is_active s1 = (Ok b, s2) ->
     is_alive self = (Ok (alive b), with_device self (Some s2)))
  /\
  (forall e s1,
     (exists msg, e = SocketError msg \/ e = EOFError msg) ->
     write_channel s null = (Raise e, s1) ->
     is_alive self = (Ok (alive false), with_device self (Some s1)))
  /\
  (forall e s1 s2,
     (exists msg, e = SocketError msg \/ e = EOFError msg) ->
     write_channel s null = (Ok tt, s1) ->
     is_active s1 = (Raise e, s2) ->
     is_alive self = (Ok (alive false), with_device self (Some s2))).
Proof.
  intros Ht Hdev. split; [|split].
  - intros s1 b s2 Hw Ha. exact (is_alive_ssh self s s1 s2 b Ht Hdev Hw Ha).
  - intros e s1 He Hw. exact (is_alive_ssh_io_error self s s1 e Ht Hdev He Hw).
  - intros e s1 s2 [msg [-> | ->]] Hw Ha; unfold is_alive; rewrite Hdev, Ht;
      unfold try_except, bind; rewrite (on_device_open _ _ _ Hdev), Hw; simpl;
      unfold on_device; simpl; rewrite Ha; reflexivity.
Qed.


(** X6: on an instance that is not open every command fails with
    AttributeError, the error of calling a method of None, and the
    connection-closed handler does not touch it. *)
Theorem send_command_closed (self : Driver) (c : string) (rest : list string) :
  device self = None ->
  _send_command (One c) self = (Raise AttributeError, self)
  /\ _send_command (Several (c :: rest)) self = (Raise AttributeError, self).
Proof.
  intros Hdev.
  split; unfold _send_command, try_except; simpl; unfold bind, on_device;
    rewrite Hdev; reflexivity.
Qed.

(** X7: a selector other than startup, running and all sends nothing, on an
    open instance or a closed one, and answers the bundle of three empty
    texts. *)
Theorem get_config_other_selector (self : Driver) (retrieve : string) :
  retrieve <> "startup" -> retrieve <> "running" -> retrieve <> "all" ->
  get_config retrieve self
  = (Ok {[ "startup" := ""; "running" := ""; "candidate" := "" ]}, self).
Proof.
  intros H1 H2 H3. unfold get_config, bind, ret.
  apply String.eqb_neq in H1, H2, H3. rewrite H1, H2, H3. reflexivity.
Qed.

End Lifecycle.

(** ** Tables *)

Section Tables.
Context {netmiko : Netmiko} {napalm : NapalmBase}.

Lemma comprehension_elements {A B} (f : A -> result B) (l : list A) : forall bs,
  comprehension f l = Ok bs ->
  Forall (fun b => exists a, In a l /\ f a = Ok b) bs.
Proof.
  induction l as [|a l IH]; intros bs H; simpl in H.
  - injection H as <-. constructor.
  - destruct (f a) as [b|] eqn:Hfa; [|discriminate].
    destruct (comprehension f l) as [bs'|] eqn:Hl; [|discriminate].
    injection H as <-. constructor.
    + exists a. split; [left; reflexivity | exact Hfa].
    + eapply List.Forall_impl; [|exact (IH bs' eq_refl)].
      intros b' (a' & Hin & Ha'). exists a'. split; [right; exact Hin | exact Ha'].
Qed.

Lemma among_exclusive (tag : string) :
  among tag ["management"; "static"] && among tag ["dynamic"] = false.
Proof.
  unfold among. simpl.
  destruct (String.eqb_spec tag "dynamic") as [->|_]; [reflexivity|].
  rewrite !orb_false_r. apply andb_false_r.
Qed.

Lemma mac_row_entry (self : Driver) (fields : list string) (e : MacEntry) :
  mac_row self fields = Ok e ->
  mac_static e && mac_active e = false
  /\ mac_moves e = -1 /\ mac_last_move e = minus_one.
Proof.
  destruct fields as [|vlan [|mac_addr [|mac_type [|interface [|x fields]]]]];
    try discriminate.
  unfold mac_row, _process_mac_fields, rbind.
  destruct (mac mac_addr); [|discriminate].
  destruct (_canonical_int self interface); [|discriminate].
  destruct (int_of_string vlan); [|discriminate].
  intros [= <-]. simpl. split; [apply among_exclusive | split; reflexivity].
Qed.

(** X8: whatever the device answers, a table that [get_mac_address_table]
    returns has no entry that is both static and active, and every entry
    has moves -1 and last_move -1.0. *)
Theorem mac_table_entry_flags (self self' : Driver) (entries : list MacEntry) :
  get_mac_address_table self = (Ok entries, self') ->
  Forall (fun e => mac_static e && mac_active e = false
                   /\ mac_moves e = -1 /\ mac_last_move e = minus_one) entries.
Proof.
  unfold get_mac_address_table, bind, lift.
  destruct (_send_command _ self) as [[out|] self1]; [|discriminate].
  destruct (index _ 0) as [piece|]; [|discriminate].
  intros [= Hrows _].
  eapply List.Forall_impl; [|exact (comprehension_elements _ _ _ Hrows)].
  intros e (row & _ & Hrow). exact (mac_row_entry _ _ _ Hrow).
Qed.

Lemma split_dashes_no_rule (hdr : list string) (last : string) :
  Forall (fun l => one_line l = true /\ dashed l = false) hdr ->
  one_line last = true -> dashed last = false ->
  split_dashes (lines hdr +:+ last) = [lines hdr +:+ last].
Proof.
  intros Hhdr Hone Hdash. unfold split_dashes.
  rewrite (split_dashes_header _ Hhdr).
  rewrite <- (append_empty last) at 1.
  rewrite (split_dashes_line_start last "" Hone Hdash) by (left; reflexivity).
  simpl. rewrite append_empty. reflexivity.
Qed.

(** X9: when no line of the answer begins with four dashes, the three table
    methods find no piece after the rule and raise IndexError. *)
Theorem tables_without_rule (self : Driver) (s s' : Session)
    (hdr : list string) (last : string) :
  device self = Some s ->
  Forall (fun l => one_line l = true /\ dashed l = false) hdr ->
  one_line last = true -> dashed last = false ->
  (send_command s "show mac address-table" = (Ok (lines hdr +:+ last), s') ->
   get_mac_address_table self = (Raise IndexError, with_device self (Some s')))
  /\
  (send_command s "show arp" = (Ok (lines hdr +:+ last), s') ->
   get_arp_table self = (Raise IndexError, with_device self (Some s')))
  /\
  (send_command s "show lldp remote-device all" = (Ok (lines hdr +:+ last), s') ->
   get_lldp_neighbors self = (Raise IndexError, with_device self (Some s'))).
Proof.
  intros Hdev Hhdr Hone Hdash.
  pose proof (split_dashes_no_rule hdr last Hhdr Hone Hdash) as Hsplit.
  split; [|split]; intros Hsend.
  - unfold get_mac_address_table, bind, lift.
    rewrite (send_command_one self s s' _ _ Hdev Hsend), Hsplit. reflexivity.
  - unfold get_arp_table, bind, lift.
    rewrite (send_command_one self s s' _ _ Hdev Hsend), Hsplit. reflexivity.
  - unfold get_lldp_neighbors, bind, lift.
    rewrite (send_command_one self s s' _ _ Hdev Hsend), Hsplit. reflexivity.
Qed.

Lemma split_dashes_body_plain (rows : list string) :
  Forall (fun row => one_line row = true /\ dashed row = false) rows ->
  split_dashes_from AtLineStart (table_body rows "") = [table_body rows ""].
Proof.
  induction rows as [|row rows IH]; intros Hrows; [reflexivity|].
  inversion Hrows as [|? ? [Hone Hdash] Hrows']; subst.
  simpl table_body. rewrite split_dashes_from_lf.
  rewrite (split_dashes_line_start row _ Hone Hdash)
    by (apply table_body_settled; left; reflexivity).
  rewrite (IH Hrows'). reflexivity.
Qed.

Lemma split_dashes_render_plain (b : MacBlock) :
  well_formed b -> summary b = None ->
  Forall (fun row => dashed row = false) (rows b) ->
  split_dashes (render b) = [lines (header b); table_body (rows b) ""].
Proof.
  intros (Hhdr & Hrule & Hlines) Hsum Hdash.
  assert (Hrows : Forall (fun row => one_line row = true /\ dashed row = false) (rows b)).
  { rewrite List.Forall_forall in *. auto. }
  unfold split_dashes, render. rewrite Hsum. simpl summary_text.
  rewrite (split_dashes_header _ Hhdr).
  change (("----" +:+ rule b) +:+ table_body (rows b) "")
    with (String "-" (("---" +:+ rule b) +:+ table_body (rows b) "")).
  cbn [split_dashes_from].
  replace (String.prefix "----"
             (String "-" (("---" +:+ rule b) +:+ table_body (rows b) "")))
    with true.
  2:{ symmetry.
      change (("---" +:+ rule b) +:+ table_body (rows b) "")
        with (String "-" (String "-" (String "-" (rule b +:+ table_body (rows b) "")))).
      rewrite !prefix_cons, prefix_nil. reflexivity. }
  rewrite (split_dashes_in_rule ("---" +:+ rule b)) by (apply one_line_append; auto).
  rewrite (split_dashes_from_settled InDelimiter)
    by (apply table_body_settled; left; reflexivity).
  rewrite (split_dashes_body_plain _ Hrows). simpl. rewrite append_empty. reflexivity.
Qed.

(** X10: on an ARP block of header lines, a rule of dashes and data lines
    of which none begins with four dashes, [get_arp_table] runs the row
    parser over the non-empty data lines in order: when each of them is
    accepted the answer has exactly one entry per non-empty data line, and
    the first line that is refused ends the call with its error. *)
Theorem arp_table_entries (self : Driver) (s s' : Session) (b : MacBlock) :
  device self = Some s ->
  send_command s "show arp" = (Ok (render b), s') ->
  well_formed b -> summary b = None ->
  Forall (fun row => dashed row = false) (rows b) ->
  get_arp_table self
  = (comprehension (fun i => arp_row self (split i)) (List.filter nonempty (rows b)),
     with_device self (Some s'))
  /\
  (Forall (fun row => row = "" \/ is_ok (arp_row self (split row)) = true) (rows b) ->
   exists entries,
     get_arp_table self = (Ok entries, with_device self (Some s'))
     /\ length entries = length (List.filter nonempty (rows b))
     /\ Forall2 (fun row e => arp_row self (split row) = Ok e)
                (List.filter nonempty (rows b)) entries).
Proof.
  intros Hdev Hsend Hwf Hsum Hdash.
  assert (Hrun : get_arp_table self
                 = (comprehension (fun i => arp_row self (split i))
                      (List.filter nonempty (rows b)),
                    with_device self (Some s'))).
  { unfold get_arp_table, bind, lift.
    rewrite (send_command_one self s s' _ _ Hdev Hsend).
    rewrite (split_dashes_render_plain b Hwf Hsum Hdash).
    unfold index. simpl nth_error. cbn iota beta.
    destruct Hwf as (_ & _ & Hlines).
    rewrite (split_lf_body _ Hlines). reflexivity. }
  split; [exact Hrun|].
  intros Hok. rewrite Hrun.
  destruct (comprehension_ok (fun i => arp_row self (split i))
              (List.filter nonempty (rows b))) as (entries & Hentries & Hall).
  { rewrite List.Forall_forall in *. intros row Hin.
    apply filter_In in Hin as [Hin Hne].
    destruct (Hok row Hin) as [->|H]; [discriminate | exact H]. }
  exists entries. rewrite Hentries. split; [reflexivity|]. split; [|exact Hall].
  symmetry. eapply List.Forall2_length. exact Hall.
Qed.

Lemma int_of_string_error (t : string) (e : exn) :
  int_of_string t = Raise e -> e = ValueError.
Proof.
  unfold int_of_string.
  destruct (match strip t with
            | String "-"%char u => option_map Z.opp (unsigned_value u)
            | String "+"%char u => unsigned_value u
            | _ => unsigned_value (strip t)
            end); congruence.
Qed.

Lemma arp_age_incomplete (self : Driver) (ip mac_addr interface mac_type h m : string) :
  h <> "n/a" ->
  _process_arp_fields self ip mac_addr interface mac_type h m "" = Raise ValueError.
Proof.
  intros Hna. unfold _process_arp_fields.
  destruct (String.eqb_spec h "n/a") as [E|_]; [contradiction|].
  destruct (int_of_string (drop_last h)) as [h'|e] eqn:Hh; simpl.
  - destruct (int_of_string (drop_last m)) as [m'|e] eqn:Hm; simpl; [reflexivity|].
    rewrite (int_of_string_error _ _ Hm). reflexivity.
  - rewrite (int_of_string_error _ _ Hh). reflexivity.
Qed.

(** X11: an ARP row needs five to seven fields, otherwise the call of the
    row parser is a TypeError; and a row whose age is not n/a needs all
    three age fields: with five or six fields the missing ones default to
    the empty text, which is no integer, and the row raises ValueError
    whatever the other fields hold. *)
Theorem arp_row_shapes (self : Driver) :
  (forall fields,
     (length fields < 5)%nat \/ (7 < length fields)%nat ->
     arp_row self fields = Raise TypeError)
  /\
  (forall ip mac_addr interface mac_type h,
     h <> "n/a" ->
     arp_row self [ip; mac_addr; interface; mac_type; h] = Raise ValueError
     /\ forall m, arp_row self [ip; mac_addr; interface; mac_type; h; m]
                  = Raise ValueError).
Proof.
  split.
  - intros fields Hlen.
    destruct fields as [|a [|b [|c [|d [|e [|f [|g [|x fields]]]]]]]];
      simpl in Hlen; try reflexivity; lia.
  - intros ip mac_addr interface mac_type h Hna. split; [|intros m];
      apply arp_age_incomplete; exact Hna.
Qed.

End Tables.

(** ** The environment record *)

Section EnvironmentRecord.
Context {netmiko : Netmiko} {builtins : Builtins}.

Lemma scan_cpu_usage (lines : list string) : forall st0 st,
  scan_cpu lines st0 = Ok st ->
  match summary_line lines with
  | None => cpu_usage st = cpu_usage st0
  | Some line => one_minute line = Ok (cpu_usage st)
  end.
Proof.
  induction lines as [|line lines IH]; intros st0 st H; simpl in H.
  - injection H as <-. reflexivity.
  - cbn [summary_line]. destruct (contains summary_marker line).
    + destruct (one_minute line) as [u|]; [|discriminate].
      simpl in H. injection H as <-. reflexivity.
    + destruct (assign_if "alloc" line (used_mem st0)); [|discriminate].
      destruct (assign_if "free" line (avail_mem st0)); [|discriminate].
      simpl in H. exact (IH _ _ H).
Qed.

(** X12: in every record [get_environment] returns, the CPU dictionary has
    the single key 0; its usage is 0.0 when the output has no summary line
    and otherwise the float read from the fifth word of the first summary
    line without its last character.  Temperature, power and fans each
    hold the one placeholder entry invalid, whatever the device answered
    to the temperature command. *)
Theorem get_environment_record (self self' : Driver) (s s1 : Session)
    (out : string) (env : Environment) :
  device self = Some s ->
  send_command s "show proc cpu" = (Ok out, s1) ->
  get_environment self = (Ok env, self') ->
  (exists u,
     env_cpu env = {[ 0 := {| usage := u |} ]}
     /\ match summary_line (splitlines out) with
        | None => u = zero
        | Some line => one_minute line = Ok u
        end)
  /\ env_temperature env
     = {[ "invalid" := {| is_alert := false; is_critical := false;
                          temperature := minus_one |} ]}
  /\ env_power env
     = {[ "invalid" := {| status := true; output := minus_one;
                          capacity := minus_one |} ]}
  /\ env_fans env = {[ "invalid" := {| fan_status := true |} ]}.
Proof.
  intros Hdev Hcpu Henv.
  unfold get_environment, bind, lift in Henv.
  rewrite (send_command_one self s s1 _ out Hdev Hcpu) in Henv.
  destruct (scan_cpu (splitlines out) _) as [st|] eqn:Hst; [|discriminate].
  pose proof (scan_cpu_usage _ _ _ Hst) as Husage. simpl in Husage.
  destruct (local "used_mem" (used_mem st)); [|discriminate].
  destruct (local "avail_mem" (avail_mem st)); [|discriminate].
  destruct (_send_command _ _) as [[temp|] self2]; [|discriminate].
  injection Henv as <- _. simpl.
  split; [|split; [|split]]; try reflexivity.
  exists (cpu_usage st). split; [reflexivity | exact Husage].
Qed.

End EnvironmentRecord.

(** ** LLDP neighbours *)

Section Neighbours.
Context {netmiko : Netmiko}.








Lemma drop_short (n : nat) : forall s, (String.length s <= n)%nat -> drop n s = "".
Proof.
  induction n as [|n IH]; intros [|c s] H; simpl in *; try reflexivity; try lia.
  apply IH. lia.
Qed.

(** X14: slicing a line never fails: a line of at most 57 characters has no
    host name ([None]), and one of at most 38 characters has the empty
    port as well. *)
Theorem neighbor_of_short_line (line : string) :
  (String.length line <= 57)%nat ->
  hostname (snd (neighbor_of_line line)) = None
  /\ ((String.length line <= 38)%nat -> neighbor_port (snd (neighbor_of_line line)) = "").
Proof.
  intros H. unfold neighbor_of_line. cbn [snd hostname neighbor_port]. split.
  - rewrite (drop_short 57 line H). reflexivity.
  - intros H'. unfold slice. rewrite (drop_short 38 line H'). reflexivity.
Qed.

(** X15: the per-interface helper returns no record on any input.  When its
    command is answered, the error is AttributeError if the answer has no
    Chassis ID line (the search result is None) and otherwise NameError
    for [caps_maps], which is bound nowhere. *)
Theorem lldp_detail_iface_never_returns (interface : string) (self : Driver) :
  is_ok (fst (_get_lldp_neighbor_detail_iface interface self)) = false
  /\
  (forall s s' out,
     device self = Some s ->
     send_command s ("show lldp remote-device detail " +:+ interface) = (Ok out, s') ->
     _get_lldp_neighbor_detail_iface interface self
     = (Raise (match search_field "Chassis ID: " out with
               | Some _ => NameError "caps_maps"
               | None => AttributeError
               end),
        with_device self (Some s'))).
Proof.
  split.
  - destruct (lldp_detail_iface_raises interface self) as (e & self' & ->). reflexivity.
  - intros s s' out Hdev Hsend.
    exact (lldp_detail_iface_chassis interface out self s s' Hdev Hsend).
Qed.


End Neighbours.

(** ** The file-system probe *)

Section FileSystemProbe.
Context {netmiko : Netmiko} {files : FileSystem}.

(** X17: [_discover_file_system] hands on what netmiko detects; when the
    probe raises, and also on an instance that is not open, the handler
    means to raise CommandErrorException, a name dell.py never imports,
    and the caller gets NameError. *)
Theorem discover_file_system_outcomes (self : Driver) :
  (forall s fs s',
     device self = Some s ->
     _autodetect_fs s = (Ok fs, s') ->
     _discover_file_system self = (Ok fs, with_device self (Some s')))
  /\
  (forall s e s',
     device self = Some s ->
     _autodetect_fs s = (Raise e, s') ->
     _discover_file_system self
     = (Raise (NameError "CommandErrorException"), with_device self (Some s')))
  /\
  (device self = None ->
   _discover_file_system self = (Raise (NameError "CommandErrorException"), self)).
Proof.
  unfold _discover_file_system, try_except. split; [|split].
  - intros s fs s' Hdev Hfs. rewrite (on_device_open _ _ _ Hdev), Hfs. reflexivity.
  - intros s e s' Hdev Hfs. rewrite (on_device_open _ _ _ Hdev), Hfs. reflexivity.
  - intros Hdev. unfold on_device. rewrite Hdev. reflexivity.
Qed.

End FileSystemProbe.

(** ** Interface settings *)

Section InterfaceSettings.

(** X18: [config_for_iface] answers the settings of the first block whose
    name equals the interface, whatever blocks follow it, and the
    defaults, no description and enabled, when no block has that name. *)
Theorem config_for_iface_first_block (iface : string)
    (before after : list (string * string * string)) :
  Forall (fun c => fst (fst c) <> iface) before ->
  config_for_iface iface before = ("", true)
  /\ forall body c,
       config_for_iface iface (before ++ (iface, body, c) :: after)
       = block_settings body.
Proof.
  induction before as [|[[name body0] c0] before IH]; intros Hbefore.
  - split; [reflexivity|]. intros body c. simpl. rewrite String.eqb_refl. reflexivity.
  - inversion Hbefore as [|? ? Hname Hbefore']; subst. simpl in Hname.
    destruct (IH Hbefore') as [Hnone Hfirst].
    simpl. apply String.eqb_neq in Hname. rewrite Hname. split; assumption.
Qed.

Lemma prefix_ext (k : string) : forall b x y,
  (String.length k <= String.length b + String.length x)%nat ->
  String.prefix k (b +:+ x +:+ y) = String.prefix k (b +:+ x).
Proof.
  induction k as [|a k IH]; intros b x y Hlen.
  - rewrite !prefix_nil. reflexivity.
  - destruct b as [|c b].
    + destruct x as [|c x]; simpl in Hlen; [lia|].
      simpl String.append. rewrite !prefix_cons.
      assert (E : String.prefix k ("" +:+ x +:+ y) = String.prefix k ("" +:+ x))
        by (apply IH; simpl; lia).
      simpl String.append in E. rewrite E. reflexivity.
    + simpl String.append. rewrite !prefix_cons.
      rewrite (IH b x y) by (simpl in Hlen; lia). reflexivity.
Qed.

Lemma append_cons (c : ascii) (a b : string) :
  String c a +:+ b = String c (a +:+ b).
Proof. reflexivity. Qed.

Lemma contains_cons (k : string) (c : ascii) (s : string) :
  contains k (String c s) = false ->
  String.prefix k (String c s) = false /\ contains k s = false.
Proof. simpl. intros H. apply orb_false_elim in H. exact H. Qed.

Lemma search_shutdown_cons (c : ascii) (t : string) :
  search_shutdown (String c t)
  = if String.prefix "no shutdown" (String c t) then Some "no shutdown"
    else if String.prefix "shutdown" (String c t) then Some "shutdown"
    else search_shutdown t.
Proof. reflexivity. Qed.

Lemma shutdown_window (b post : string) :
  b <> "" ->
  String.prefix "shutdown" (b +:+ "shutdown" +:+ post)
  = String.prefix "shutdown" (b +:+ "shutdow").
Proof.
  intros Hb.
  change ("shutdown" +:+ post) with ("shutdow" +:+ ("n" +:+ post)).
  apply prefix_ext. destruct b; [congruence | simpl; lia].
Qed.

(** The first place where the word stands decides. *)
Lemma search_shutdown_first (pre : string) : forall post,
  contains "shutdown" (pre +:+ "shutdow") = false ->
  search_shutdown (pre +:+ "shutdown" +:+ post)
  = Some (if ends_with "no " pre then "no shutdown" else "shutdown").
Proof.
  induction pre as [|c pre IH]; intros post Hfirst.
  - change ("" +:+ "shutdown" +:+ post) with (String "s" ("hutdown" +:+ post)).
    rewrite search_shutdown_cons.
    assert (Hno : String.prefix "no shutdown" (String "s" ("hutdown" +:+ post)) = false)
      by (rewrite prefix_cons; reflexivity).
    assert (Hbare : String.prefix "shutdown" (String "s" ("hutdown" +:+ post)) = true)
      by exact (prefix_append "shutdown" post).
    rewrite Hno, Hbare. reflexivity.
  - rewrite (append_cons c pre) in *.
    apply contains_cons in Hfirst as [Hhere Hlater].
    rewrite search_shutdown_cons.
    assert (Hbare : String.prefix "shutdown" (String c (pre +:+ "shutdown" +:+ post)) = false).
    { rewrite <- (append_cons c pre).
      rewrite shutdown_window by discriminate.
      rewrite (append_cons c pre). exact Hhere. }
    rewrite Hbare.
    destruct (String.prefix "no shutdown" (String c (pre +:+ "shutdown" +:+ post)))
      eqn:Hno.
    + (* the negated form starts here: the text before the word is "no " *)
      rewrite prefix_cons in Hno. apply andb_prop in Hno as [Hc Hno].
      apply Ascii.eqb_eq in Hc. subst c.
      destruct pre as [|c1 pre].
      { change ("" +:+ "shutdown" +:+ post) with (String "s" ("hutdown" +:+ post)) in Hno.
        rewrite prefix_cons in Hno. discriminate Hno. }
      rewrite (append_cons c1 pre) in Hno. rewrite prefix_cons in Hno.
      apply andb_prop in Hno as [Hc Hno]. apply Ascii.eqb_eq in Hc. subst c1.
      destruct pre as [|c2 pre].
      { change ("" +:+ "shutdown" +:+ post) with (String "s" ("hutdown" +:+ post)) in Hno.
        rewrite prefix_cons in Hno. discriminate Hno. }
      rewrite (append_cons c2 pre) in Hno. rewrite prefix_cons in Hno.
      apply andb_prop in Hno as [Hc Hno]. apply Ascii.eqb_eq in Hc. subst c2.
      destruct pre as [|c3 pre]; [reflexivity|].
      exfalso.
      rewrite (append_cons "o" (String " " (String c3 pre))) in Hlater.
      apply contains_cons in Hlater as [_ Hlater].
      rewrite (append_cons " " (String c3 pre)) in Hlater.
      apply contains_cons in Hlater as [_ Hlater].
      apply contains_cons in Hlater as [Hlater _].
      rewrite shutdown_window in Hno by discriminate.
      exact (eq_true_false_abs _ Hno Hlater).
    + rewrite (IH post Hlater).
      assert (Hnot : String.eqb "no " (String c pre) = false).
      { destruct (String.eqb_spec "no " (String c pre)) as [E|_]; [|reflexivity].
        injection E as <- <-.
        change (String "n" ("o " +:+ "shutdown" +:+ post))
          with ("no shutdown" +:+ post) in Hno.
        rewrite prefix_append in Hno. discriminate. }
      cbn [ends_with]. rewrite Hnot. reflexivity.
Qed.

Lemma prefix_contains (k s : string) :
  String.prefix k s = true -> contains k s = true.
Proof. intros H. destruct s; cbn [contains]; rewrite H; reflexivity. Qed.

Lemma contains_later (k : string) (c : ascii) (s : string) :
  contains k s = true -> contains k (String c s) = true.
Proof. intros H. cbn [contains]. rewrite H. apply orb_true_r. Qed.

Lemma negated_contains_bare (s : string) :
  String.prefix "no shutdown" s = true -> contains "shutdown" s = true.
Proof.
  intros H.
  destruct s as [|c1 s]; [discriminate|].
  rewrite prefix_cons in H. apply andb_prop in H as [_ H].
  destruct s as [|c2 s]; [discriminate|].
  rewrite prefix_cons in H. apply andb_prop in H as [_ H].
  destruct s as [|c3 s]; [discriminate|].
  rewrite prefix_cons in H. apply andb_prop in H as [_ H].
  do 3 apply contains_later. apply prefix_contains, H.
Qed.

Lemma search_shutdown_absent (s : string) :
  contains "shutdown" s = false -> search_shutdown s = None.
Proof.
  induction s as [|c s IH]; intros H; [reflexivity|].
  rewrite search_shutdown_cons.
  destruct (String.prefix "no shutdown" (String c s)) eqn:Hno.
  - rewrite (negated_contains_bare _ Hno) in H. discriminate.
  - apply contains_cons in H as [-> H]. exact (IH H).
Qed.

(** X19: an interface is disabled exactly by the first place where the
    word shutdown stands in its block: a block without the word is
    enabled, and a block in which the word first stands after [pre] is
    enabled if [pre] ends with "no " and disabled otherwise, whatever
    follows. *)
Theorem block_settings_enabled (body : string) :
  (contains "shutdown" body = false -> snd (block_settings body) = true)
  /\
  (forall pre post,
     body = pre +:+ "shutdown" +:+ post ->
     contains "shutdown" (pre +:+ "shutdow") = false ->
     snd (block_settings body) = ends_with "no " pre).
Proof.
  split.
  - intros H. unfold block_settings. cbn [snd].
    rewrite (search_shutdown_absent _ H). reflexivity.
  - intros pre post -> Hfirst. unfold block_settings. cbn [snd].
    rewrite (search_shutdown_first pre post Hfirst).
    destruct (ends_with "no " pre); reflexivity.
Qed.

Lemma drop_append (k r : string) : drop (String.length k) (k +:+ r) = r.
Proof. induction k as [|a k IH]; [reflexivity | exact IH]. Qed.

Lemma search_description_cons (c : ascii) (t : string) :
  search_description (String c t)
  = match (if String.prefix description_key (String c t)
           then quoted (drop (String.length description_key) (String c t))
           else None) with
    | Some g => Some g
    | None => search_description t
    end.
Proof. reflexivity. Qed.

Lemma description_window (b rest : string) :
  b <> "" ->
  String.prefix description_key (b +:+ description_key +:+ rest)
  = String.prefix description_key (b +:+ "description: ").
Proof.
  intros Hb.
  change (description_key +:+ rest) with ("description: " +:+ String DQ rest).
  apply prefix_ext. destruct b; [congruence | simpl; lia].
Qed.

Lemma search_description_absent (s : string) :
  contains description_key s = false -> search_description s = None.
Proof.
  induction s as [|c s IH]; intros H; [reflexivity|].
  apply contains_cons in H as [Hhere Hlater].
  rewrite search_description_cons, Hhere. exact (IH Hlater).
Qed.

Lemma search_description_first (pre : string) : forall rest g,
  contains description_key (pre +:+ "description: ") = false ->
  quoted rest = Some g ->
  search_description (pre +:+ description_key +:+ rest) = Some g.
Proof.
  induction pre as [|c pre IH]; intros rest g Hfirst Hquoted.
  - change ("" +:+ description_key +:+ rest)
      with (String "d" ("escription: " +:+ String DQ rest)).
    rewrite search_description_cons.
    change (String "d" ("escription: " +:+ String DQ rest))
      with (description_key +:+ rest).
    rewrite prefix_append, drop_append, Hquoted. reflexivity.
  - rewrite (append_cons c pre) in *.
    apply contains_cons in Hfirst as [Hhere Hlater].
    rewrite search_description_cons.
    rewrite <- (append_cons c pre) at 1.
    rewrite description_window by discriminate.
    rewrite (append_cons c pre), Hhere.
    exact (IH rest g Hlater Hquoted).
Qed.

Lemma until_quote_line (d : string) : forall post,
  one_line d = true ->
  contains (String DQ "") d = false ->
  until_quote (d +:+ String DQ post) = Some d.
Proof.
  induction d as [|c d IH]; intros post Hline Hquote; [reflexivity|].
  apply one_line_cons in Hline as [Hc Hline].
  apply contains_cons in Hquote as [Hhere Hlater].
  rewrite prefix_cons, prefix_nil, andb_true_r, Ascii.eqb_sym in Hhere.
  rewrite (append_cons c d). cbn [until_quote].
  rewrite Hc, Hhere, (IH post Hline Hlater). reflexivity.
Qed.

(** X20: the description of a block is the empty text when the block has
    no description key; where the key first stands, followed on the same
    line by a character, by text without a double quote and by a double
    quote, the description is that character and that text, even if the
    character is itself a double quote. *)
Theorem block_settings_description (body : string) :
  (contains description_key body = false -> fst (block_settings body) = "")
  /\
  (forall pre c d post,
     body = pre +:+ description_key +:+ String c d +:+ String DQ post ->
     contains description_key (pre +:+ "description: ") = false ->
     Ascii.eqb c LF = false ->
     one_line d = true ->
     contains (String DQ "") d = false ->
     fst (block_settings body) = String c d).
Proof.
  split.
  - intros H. unfold block_settings. cbn [fst].
    rewrite (search_description_absent _ H). reflexivity.
  - intros pre c d post -> Hfirst Hc Hline Hquote.
    unfold block_settings. cbn [fst].
    rewrite (search_description_first pre (String c d +:+ String DQ post) (String c d)).
    + reflexivity.
    + exact Hfirst.
    + rewrite (append_cons c d). unfold quoted.
      rewrite Hc, (until_quote_line d post Hline Hquote). reflexivity.
Qed.

End InterfaceSettings.

(** ** NTP peers *)

Section NtpPeers.
Context {netmiko : Netmiko} {regex : Regex}.







End NtpPeers.

(** ** Further runs on the scripted devices *)

Lemma init_transport_witness :
  @init Script.switch "serial" false (Some 22) false = Raise (KeyError "serial")
  /\ exists self,
       @init Script.switch "telnet" false None false = Ok self
       /\ device self = None /\ inline_transfer self = true /\ port self = 23.
Proof.
  split.
  - apply (proj1 (@init_transport Script.switch "serial" false false (Some 22)));
      discriminate.
  - eexists. split; [reflexivity|].
    destruct (proj2 (@init_transport Script.switch "telnet" false false None) _ eq_refl)
      as (_ & Hdev & _ & Hinline & Hport).
    split; [exact Hdev|]. split; [exact Hinline | exact Hport].
Defined.

Lemma open_outcomes_witness :
  @open (Script.faulty false true) (Script.on_faulty false true None)
  = (Raise (OtherError "NetMikoTimeoutException"), Script.on_faulty false true None)
  /\
  @open (Script.faulty true false) (Script.on_faulty true false None)
  = (Raise ValueError, Script.on_faulty true false (Some ["enable"])).
Proof.
  split.
  - apply (proj1 (@open_outcomes (Script.faulty false true)
                    (Script.on_faulty false true None))).
    reflexivity.
  - apply (proj2 (@open_outcomes (Script.faulty true false)
                    (Script.on_faulty true false None)) []).
    + reflexivity.
    + reflexivity.
Defined.

Lemma close_outcomes_witness :
  @close (Script.faulty true true) (Script.on_faulty true true None)
  = (Raise AttributeError, Script.on_faulty true true None)
  /\
  device (snd (@close (Script.faulty true true) (Script.on_faulty true true (Some []))))
  = Some ["disconnect"].
Proof.
  split.
  - apply (proj1 (@close_outcomes (Script.faulty true true)
                    (Script.on_faulty true true None))).
    reflexivity.
  - destruct (proj2 (@close_outcomes (Script.faulty true true)
                       (Script.on_faulty true true (Some []))) [] (Ok tt) ["disconnect"]
                eq_refl eq_refl) as (_ & Hkept & _).
    exact Hkept.
Defined.

Lemma is_alive_ssh_probe_witness :
  @is_alive Script.switch (Script.opened "ssh" [])
  = (Ok (alive true), Script.opened "ssh" [null])
  /\
  @is_alive (Script.faulty true true) (Script.on_faulty true true (Some []))
  = (Ok (alive false), Script.on_faulty true true (Some [null])).
Proof.
  split.
  - destruct (@is_alive_ssh_probe Script.switch (Script.opened "ssh" []) []
                eq_refl eq_refl) as (Hprobe & _ & _).
    apply (Hprobe [null] true [null]); reflexivity.
  - destruct (@is_alive_ssh_probe (Script.faulty true true)
                (Script.on_faulty true true (Some [])) [] eq_refl eq_refl)
      as (_ & Hwrite & _).
    apply (Hwrite (SocketError "closed") [null]).
    + exists "closed". left. reflexivity.
    + reflexivity.
Defined.


Lemma send_command_closed_witness :
  @_send_command (Script.faulty true true) (Several ["show version"; "show ver"])
    (Script.on_faulty true true None)
  = (Raise AttributeError, Script.on_faulty true true None).
Proof.
  apply (proj2 (@send_command_closed (Script.faulty true true)
                  (Script.on_faulty true true None) "show version" ["show ver"]
                  eq_refl)).
Defined.

Lemma get_config_other_selector_witness :
  @get_config Script.switch "candidate" (Script.opened "ssh" [])
  = (Ok {[ "startup" := ""; "running" := ""; "candidate" := "" ]},
     Script.opened "ssh" []).
Proof.
  apply (@get_config_other_selector Script.switch); discriminate.
Defined.

Lemma mac_table_entry_flags_witness :
  exists entries,
    fst (@get_mac_address_table Script.switch Script.plain_helpers
           (Script.opened "ssh" [])) = Ok entries
    /\ length entries = 2%nat
    /\ Forall (fun e => mac_static e && mac_active e = false
                        /\ mac_moves e = -1 /\ mac_last_move e = minus_one) entries.
Proof.
  destruct (@get_mac_address_table Script.switch Script.plain_helpers
              (Script.opened "ssh" [])) as [r self'] eqn:Hrun.
  vm_compute in Hrun. injection Hrun as <- <-.
  eexists. split; [reflexivity|]. split; [reflexivity|].
  eapply (@mac_table_entry_flags Script.switch Script.plain_helpers
            (Script.opened "ssh" [])).
  vm_compute. reflexivity.
Defined.

Lemma tables_without_rule_witness :
  @get_mac_address_table (Script.report "show mac address-table" Script.ruleless)
    Script.plain_helpers (Script.on_report _ _ [])
  = (Raise IndexError, Script.on_report _ _ ["show mac address-table"])
  /\
  @get_arp_table (Script.report "show arp" Script.ruleless)
    Script.plain_helpers (Script.on_report _ _ [])
  = (Raise IndexError, Script.on_report _ _ ["show arp"])
  /\
  @get_lldp_neighbors (Script.report "show lldp remote-device all" Script.ruleless)
    (Script.on_report _ _ [])
  = (Raise IndexError, Script.on_report _ _ ["show lldp remote-device all"]).
Proof.
  assert (Hhdr : Forall (fun l => one_line l = true /\ dashed l = false)
                   ["No entries found"]) by (repeat constructor).
  split; [|split].
  - destruct (@tables_without_rule
                (Script.report "show mac address-table" Script.ruleless)
                Script.plain_helpers (Script.on_report _ _ []) []
                ["show mac address-table"] ["No entries found"] "console#"
                eq_refl Hhdr eq_refl eq_refl) as (Hmac & _ & _).
    apply Hmac. reflexivity.
  - destruct (@tables_without_rule (Script.report "show arp" Script.ruleless)
                Script.plain_helpers (Script.on_report _ _ []) []
                ["show arp"] ["No entries found"] "console#"
                eq_refl Hhdr eq_refl eq_refl) as (_ & Harp & _).
    apply Harp. reflexivity.
  - destruct (@tables_without_rule
                (Script.report "show lldp remote-device all" Script.ruleless)
                Script.plain_helpers (Script.on_report _ _ []) []
                ["show lldp remote-device all"] ["No entries found"] "console#"
                eq_refl Hhdr eq_refl eq_refl) as (_ & _ & Hlldp).
    apply Hlldp. reflexivity.
Defined.

Lemma arp_table_entries_witness :
  exists entries,
    @get_arp_table (Script.report "show arp" (render Script.arp_block))
      Script.plain_helpers (Script.on_report _ _ [])
    = (Ok entries, Script.on_report _ _ ["show arp"])
    /\ length entries = 2%nat.
Proof.
  assert (Hwf : well_formed Script.arp_block)
    by (split; [|split]; repeat constructor).
  assert (Hdash : Forall (fun row => dashed row = false) (rows Script.arp_block))
    by (repeat constructor).
  destruct (@arp_table_entries (Script.report "show arp" (render Script.arp_block))
              Script.plain_helpers (Script.on_report _ _ []) [] ["show arp"]
              Script.arp_block eq_refl eq_refl Hwf eq_refl Hdash) as [_ Hrows].
  assert (Hok : Forall (fun row => row = "" \/
                  is_ok (@arp_row (Script.report "show arp" (render Script.arp_block))
                           Script.plain_helpers (Script.on_report _ _ [])
                           (split row)) = true)
                (rows Script.arp_block))
    by (repeat constructor).
  destruct (Hrows Hok) as (entries & Hentries & Hlen & _).
  exists entries. split; [exact Hentries | exact Hlen].
Defined.

Lemma arp_row_shapes_witness :
  @arp_row Script.switch Script.plain_helpers (Script.opened "ssh" [])
    ["10.10.10.1"; "0025.90C2.88ED"] = Raise TypeError
  /\
  @arp_row Script.switch Script.plain_helpers (Script.opened "ssh" [])
    ["10.10.10.1"; "0025.90C2.88ED"; "Vl1"; "Dynamic"; "5h"] = Raise ValueError.
Proof.
  destruct (@arp_row_shapes Script.switch Script.plain_helpers
              (Script.opened "ssh" [])) as [Harity Hage].
  split.
  - apply Harity. left. simpl. lia.
  - apply (Hage "10.10.10.1" "0025.90C2.88ED" "Vl1" "Dynamic" "5h"). discriminate.
Defined.

Lemma get_environment_record_witness :
  exists env u,
    fst (@get_environment Script.switch Script.decimal_builtins
           (Script.opened "ssh" [])) = Ok env
    /\ env_cpu env = {[ 0 := {| usage := u |} ]}
    /\ Script.short_decimal "9.75" = Ok u.
Proof.
  destruct (@get_environment Script.switch Script.decimal_builtins
              (Script.opened "ssh" [])) as [[env|e] self'] eqn:Hrun;
    [|vm_compute in Hrun; discriminate].
  destruct (@get_environment_record Script.switch Script.decimal_builtins
              (Script.opened "ssh" []) self' [] ["show proc cpu"] _ env
              eq_refl eq_refl Hrun) as ((u & Hcpu & Hsummary) & _).
  exists env, u. split; [reflexivity|]. split; [exact Hcpu|].
  vm_compute in Hsummary. vm_compute. exact Hsummary.
Defined.


Lemma neighbor_of_short_line_witness :
  hostname (snd (neighbor_of_line "Gi1/0/2   2       F4:8E:38:41:96:28   Gi0/2")) = None
  /\ neighbor_port (snd (neighbor_of_line "Gi1/0/2   2")) = "".
Proof.
  split.
  - apply (proj1 (neighbor_of_short_line
                    "Gi1/0/2   2       F4:8E:38:41:96:28   Gi0/2" ltac:(simpl; lia))).
  - apply (proj2 (neighbor_of_short_line "Gi1/0/2   2" ltac:(simpl; lia))).
    simpl. lia.
Defined.

Lemma lldp_detail_iface_never_returns_witness :
  @_get_lldp_neighbor_detail_iface
    (Script.report "show lldp remote-device detail Gi1/0/1" Script.lldp_detail_text)
    "Gi1/0/1" (Script.on_report _ _ [])
  = (Raise (NameError "caps_maps"),
     Script.on_report _ _ ["show lldp remote-device detail Gi1/0/1"])
  /\
  @_get_lldp_neighbor_detail_iface Script.switch "Gi1/0/1" (Script.opened "ssh" [])
  = (Raise AttributeError,
     Script.opened "ssh" ["show lldp remote-device detail Gi1/0/1"]).
Proof.
  split.
  - apply (proj2 (@lldp_detail_iface_never_returns
                    (Script.report "show lldp remote-device detail Gi1/0/1"
                       Script.lldp_detail_text)
                    "Gi1/0/1" (Script.on_report _ _ []))
             [] ["show lldp remote-device detail Gi1/0/1"] Script.lldp_detail_text
             eq_refl eq_refl).
  - apply (proj2 (@lldp_detail_iface_never_returns Script.switch "Gi1/0/1"
                    (Script.opened "ssh" []))
             [] ["show lldp remote-device detail Gi1/0/1"] Script.invalid_input
             eq_refl eq_refl).
Defined.


Lemma discover_file_system_outcomes_witness :
  @_discover_file_system Script.switch (Script.probe (Ok "flash:"))
    (Script.opened "ssh" [])
  = (Ok "flash:", Script.opened "ssh" ["dir"])
  /\
  @_discover_file_system Script.switch (Script.probe (Raise ValueError))
    (Script.opened "ssh" [])
  = (Raise (NameError "CommandErrorException"), Script.opened "ssh" ["dir"]).
Proof.
  split.
  - apply (proj1 (@discover_file_system_outcomes Script.switch
                    (Script.probe (Ok "flash:")) (Script.opened "ssh" []))
             [] "flash:" ["dir"]); reflexivity.
  - apply (proj1 (proj2 (@discover_file_system_outcomes Script.switch
                           (Script.probe (Raise ValueError)) (Script.opened "ssh" [])))
             [] ValueError ["dir"]); reflexivity.
Defined.

Lemma config_for_iface_first_block_witness :
  config_for_iface "Gi1/0/3" Script.interface_blocks = ("", true)
  /\ config_for_iface "Gi1/0/2" Script.interface_blocks
     = block_settings Script.parked_block.
Proof.
  split.
  - apply (proj1 (config_for_iface_first_block "Gi1/0/3" Script.interface_blocks []
                    ltac:(repeat constructor; discriminate))).
  - apply (proj2 (config_for_iface_first_block "Gi1/0/2"
                    [("Gi1/0/1", Script.uplink_block, "t")]
                    [("Gi1/0/1", Script.parked_block, "n")]
                    ltac:(repeat constructor; discriminate))).
Defined.

Lemma block_settings_enabled_witness :
  snd (block_settings Script.uplink_block) = true
  /\ snd (block_settings Script.parked_block) = false
  /\ snd (block_settings "spanning-tree portfast") = true.
Proof.
  split; [|split].
  - apply (proj2 (block_settings_enabled Script.uplink_block)
             ("description: " +:+ String DQ ("Uplink to core" +:+ String DQ (String LF "no ")))
             (String LF "spanning-tree portfast")); reflexivity.
  - apply (proj2 (block_settings_enabled Script.parked_block)
             ("switchport mode access" +:+ String LF "") ""); reflexivity.
  - apply (proj1 (block_settings_enabled "spanning-tree portfast")). reflexivity.
Defined.

Lemma block_settings_description_witness :
  fst (block_settings Script.uplink_block) = "Uplink to core"
  /\ fst (block_settings Script.parked_block) = "".
Proof.
  split.
  - apply (proj2 (block_settings_description Script.uplink_block)
             "" "U"%char "plink to core"
             (String LF ("no shutdown" +:+ String LF "spanning-tree portfast")));
      reflexivity.
  - apply (proj1 (block_settings_description Script.parked_block)). reflexivity.
Defined.

